(** * The A2UI evaluation matcher [UpdateComponentsSchemaMatcher]

    A shallow embedding of
    [specification/0.9/eval/src/update_components_schema_matcher.ts] and of
    the [ValidationResult] interface of [schema_matcher.ts], with the
    properties of [validate] and [valueMatches].

    The matcher inspects messages typed [any].  They are modelled as
    JSON-like trees ([value]); the parts of the ECMAScript run time the two
    methods call (property reads, [typeof], truthiness, strict equality,
    [toLowerCase], [JSON.stringify] with [Number::toString]) are modelled in
    the module [Js].  The methods themselves run in a small monad of a store
    and of exceptions, the store holding the matcher object and the message.

    What the model leaves out: a message is a tree, so no object occurs at
    two places of it and none holds itself; an object has its own properties
    only, not those of [Object.prototype]; a function passed as the expected
    value terminates, may throw, and may write to the message and to the
    fields of the matcher other than [propertyValue], but what a method has
    read before the call it does not read again; strings are ASCII text. *)

From Stdlib Require Import Bool List String Ascii ZArith Lia Floats.
From Stdlib Require Import DecimalString.
Import ListNotations.

Local Open Scope string_scope.

(** ** The run time *)

Module Js.

(** *** Strings

    A string is a [String.string]: the text of the message, one character
    per letter for ASCII text.  [toLowerCase] maps the letters [A-Z] and
    leaves every other character, which is what
    [String.prototype.toLowerCase] does on ASCII text. *)

Definition lower_ascii (c : ascii) : ascii :=
  let n := nat_of_ascii c in
  if (65 <=? n)%nat && (n <=? 90)%nat then ascii_of_nat (n + 32) else c.

Fixpoint toLowerCase (s : string) : string :=
  match s with
  | EmptyString => EmptyString
  | String c s' => String (lower_ascii c) (toLowerCase s')
  end.

(** [s.includes(t)]: [t] occurs in [s]. *)
Fixpoint includes (s t : string) : bool :=
  String.prefix t s ||
  match s with
  | EmptyString => false
  | String _ s' => includes s' t
  end.

(** *** Numbers

    A number is a binary64 float; [===] on numbers is [PrimFloat.eqb]
    ([NaN] differs from itself, the two zeros are equal). *)

Definition number := float.

Definition is_finite (x : number) : bool :=
  match Prim2SF x with
  | S754_zero _ | S754_finite _ _ _ => true
  | _ => false
  end.

Definition string_of_nonneg (z : Z) : string :=
  NilZero.string_of_uint (N.to_uint (Z.to_N z)).

Fixpoint zeros (n : nat) : string :=
  match n with
  | O => ""
  | S n' => String "0" (zeros n')
  end.

(** The decimal digits of a finite positive number (ECMA-262,
    Number::toString, step 5): the least [k], and for it the integers [n]
    and [s] with [10^(k-1) <= s < 10^k], such that [s * 10^(n-k)] rounds to
    the number, [s * 10^(n-k)] being as close to the number as possible.

    The number is [m * 2^e].  In units of [2^(e-2)] it is [4m]; the reals
    that round to it lie between [4m - 2] (or [4m - 1] where the binade
    changes) and [4m + 2], the bounds included when [m] is even.  A binary64
    number has at most 17 digits and lies between [10^-324] and [10^309],
    which the two searches below cover. *)

Section Digits.
Local Open Scope Z_scope.
Variables (m : Z) (e : Z).

Let unit_num : Z := if (2 <=? e)%Z then 2 ^ (e - 2) else 1.
Let unit_den : Z := if (2 <=? e)%Z then 1 else 2 ^ (2 - e).
Let V : Z := 4 * m.
Let HI : Z := 4 * m + 2.
Let LO : Z :=
  if (m =? 2 ^ 52)%Z && (-1074 <? e)%Z then 4 * m - 1 else 4 * m - 2.
Let closed : bool := Z.even m.

(** [s * 10^p] against [X] units: [s * A p] against [X * B p]. *)
Definition scaleA (p : Z) : Z := unit_den * 10 ^ (Z.max p 0).
Definition scaleB (p : Z) : Z := unit_num * 10 ^ (Z.max (- p) 0).

(** The least [n] with [number < 10^n], searched upwards. *)
Fixpoint magnitude (fuel : nat) (n : Z) : Z :=
  match fuel with
  | O => n
  | S fuel' =>
      if (V * scaleB n <? scaleA n)%Z then n else magnitude fuel' (n + 1)
  end.

(** The best [s] of [k] digits for the exponent [n], with its distance
    to the number as a fraction. *)
Definition candidate (k n : Z) : option (Z * (Z * Z)) :=
  let p := n - k in
  let A := scaleA p in
  let B := scaleB p in
  let below := (if closed then (LO * B + A - 1) / A else LO * B / A + 1)%Z in
  let above := (if closed then HI * B / A else (HI * B + A - 1) / A - 1)%Z in
  let L := Z.max below (10 ^ (k - 1)) in
  let H := Z.min above (10 ^ k - 1) in
  if (H <? L)%Z then None
  else
    let c := (V * B / A)%Z in
    let twice := (2 * (V * B - c * A))%Z in
    let near :=
      if (twice <? A)%Z then c
      else if (A <? twice)%Z then c + 1
      else if Z.even c then c else c + 1 in
    let s := Z.max L (Z.min H near) in
    Some (s, (Z.abs (s * A - V * B), B)).

Definition closer (x y : option (Z * Z * (Z * (Z * Z))))
  : option (Z * Z * (Z * (Z * Z))) :=
  match x, y with
  | None, _ => y
  | _, None => x
  | Some (_, (_, (dx, bx))), Some (_, (_, (dy, b_y))) =>
      if (dy * bx <? dx * b_y)%Z then y else x
  end.

Definition at_exponent (k n : Z) : option (Z * Z * (Z * (Z * Z))) :=
  match candidate k n with
  | Some (s, d) => Some (n, k, (s, d))
  | None => None
  end.

Fixpoint shortest (fuel : nat) (k n0 : Z) : Z * Z * Z :=
  match fuel with
  | O => (n0, k, 0%Z)
  | S fuel' =>
      match closer (at_exponent k n0) (at_exponent k (n0 + 1)) with
      | Some (n, k', (s, _)) => (n, k', s)
      | None => shortest fuel' (k + 1) n0
      end
  end.

Definition digits : Z * Z * Z :=
  shortest 18 1 (magnitude 700 (-330)).
End Digits.

(** Number::toString, steps 6 to 10, from [n], [k] and the digits [s]. *)
Definition layout (n k : Z) (s : string) : string :=
  let exponent :=
    (if (0 <=? n - 1)%Z then "+" else "-") ++ string_of_nonneg (Z.abs (n - 1)%Z) in
  if (k <=? n)%Z && (n <=? 21)%Z then s ++ zeros (Z.to_nat (n - k)%Z)
  else if (0 <? n)%Z && (n <=? 21)%Z then
    substring 0 (Z.to_nat n) s ++ "." ++ substring (Z.to_nat n) (Z.to_nat (k - n)%Z) s
  else if (-6 <? n)%Z && (n <=? 0)%Z then "0." ++ zeros (Z.to_nat (- n)) ++ s
  else if (k =? 1)%Z then s ++ "e" ++ exponent
  else substring 0 1 s ++ "." ++ substring 1 (Z.to_nat (k - 1)%Z) s ++ "e" ++ exponent.

Definition NumberToString (x : number) : string :=
  match Prim2SF x with
  | S754_nan => "NaN"
  | S754_zero _ => "0"
  | S754_infinity sign => if sign then "-Infinity" else "Infinity"
  | S754_finite sign m e =>
      let '(n, k, s) := digits (Zpos m) e in
      (if sign then "-" else "") ++ layout n k (string_of_nonneg s)
  end.

(** *** Values

    What a message typed [any] holds: the JSON-like values.  An object is
    the list of its own properties in the order [JSON.stringify] visits
    them; a read finds the first entry of a name.  Two places of a message
    hold two objects, so [===] on objects and arrays, which compares
    identities, is modelled as [false]. *)

#[local] Unset Elimination Schemes.
Inductive value : Type :=
| VUndefined
| VNull
| VBool (b : bool)
| VNum (n : number)
| VStr (s : string)
| VArr (items : list value)
| VObj (fields : list (string * value)).
#[local] Set Elimination Schemes.

Definition typeof (v : value) : string :=
  match v with
  | VUndefined => "undefined"
  | VNull | VArr _ | VObj _ => "object"
  | VBool _ => "boolean"
  | VNum _ => "number"
  | VStr _ => "string"
  end.

Definition isArray (v : value) : bool :=
  match v with
  | VArr _ => true
  | _ => false
  end.

(** ToBoolean. *)
Definition truthy (v : value) : bool :=
  match v with
  | VUndefined | VNull => false
  | VBool b => b
  | VNum n => negb (PrimFloat.eqb n 0%float || PrimFloat.is_nan n)
  | VStr s => negb (String.eqb s "")
  | VArr _ | VObj _ => true
  end.

(** [x === y] *)
Definition strict_equal (x y : value) : bool :=
  match x, y with
  | VUndefined, VUndefined => true
  | VNull, VNull => true
  | VBool a, VBool b => Bool.eqb a b
  | VNum a, VNum b => PrimFloat.eqb a b
  | VStr a, VStr b => String.eqb a b
  | _, _ => false
  end.

Definition is_undefined (v : value) : bool := strict_equal v VUndefined.
Definition is_null (v : value) : bool := strict_equal v VNull.

(** *** Completions

    A call returns or throws: a [TypeError] of the run time, or whatever
    value a caller's predicate throws. *)

Inductive exn : Type :=
| TypeError (message : string)
| Thrown (v : value).

Inductive Completion (A : Type) : Type :=
| Normal (a : A)
| Throw (e : exn).
Arguments Normal {A} a.
Arguments Throw {A} e.

(** *** Property reads *)

Fixpoint own (fields : list (string * value)) (key : string) : value :=
  match fields with
  | [] => VUndefined
  | (k, v) :: rest => if String.eqb k key then v else own rest key
  end.

Definition number_of_nat (n : nat) : number :=
  PrimFloat.of_uint63 (Uint63.of_Z (Z.of_nat n)).

(** The element of the index [key] writes, counting from [i]. *)
Fixpoint element {A : Type} (i : nat) (key : string) (l : list A) : option A :=
  match l with
  | [] => None
  | x :: rest =>
      if String.eqb (string_of_nonneg (Z.of_nat i)) key then Some x
      else element (S i) key rest
  end.

(** [v.key] and [v[key]].  Reading a property of [undefined] or [null]
    throws.  An object is read for its own properties, and an array and a
    string for their length and their elements; what a prototype supplies
    ([toString], [constructor], [filter], ...) is not modelled and reads as
    [undefined], so a statement about a read of an arbitrary name leaves the
    names of [inherited] out. *)
Definition Get (v : value) (key : string) : Completion value :=
  match v with
  | VUndefined =>
      Throw (TypeError ("Cannot read properties of undefined (reading '" ++ key ++ "')"))
  | VNull =>
      Throw (TypeError ("Cannot read properties of null (reading '" ++ key ++ "')"))
  | VObj fields => Normal (own fields key)
  | VArr items =>
      if String.eqb key "length" then Normal (VNum (number_of_nat (List.length items)))
      else match element 0 key items with
           | Some x => Normal x
           | None => Normal VUndefined
           end
  | VStr s =>
      if String.eqb key "length" then Normal (VNum (number_of_nat (String.length s)))
      else match element 0 key (list_ascii_of_string s) with
           | Some c => Normal (VStr (String c ""))
           | None => Normal VUndefined
           end
  | VBool _ | VNum _ => Normal VUndefined
  end.

(** *** JSON.stringify *)

Definition hex_digit (n : nat) : ascii :=
  match n with
  | 0 => "0" | 1 => "1" | 2 => "2" | 3 => "3" | 4 => "4" | 5 => "5" | 6 => "6"
  | 7 => "7" | 8 => "8" | 9 => "9" | 10 => "a" | 11 => "b" | 12 => "c"
  | 13 => "d" | 14 => "e" | _ => "f"
  end%char.

Definition double_quote : string := String (ascii_of_nat 34) "".

Definition quote_char (c : ascii) : string :=
  let n := nat_of_ascii c in
  if Nat.eqb n 34 then String "\" double_quote
  else if Nat.eqb n 92 then "\\"
  else if Nat.eqb n 8 then "\b"
  else if Nat.eqb n 12 then "\f"
  else if Nat.eqb n 10 then "\n"
  else if Nat.eqb n 13 then "\r"
  else if Nat.eqb n 9 then "\t"
  else if Nat.ltb n 32 then
    "\u00" ++ String (hex_digit (Nat.div n 16)) (String (hex_digit (Nat.modulo n 16)) "")
  else String c "".

Fixpoint quote_chars (s : string) : string :=
  match s with
  | EmptyString => ""
  | String c s' => quote_char c ++ quote_chars s'
  end.

(** QuoteJSONString *)
Definition QuoteJSONString (s : string) : string :=
  double_quote ++ quote_chars s ++ double_quote.

Fixpoint join (parts : list string) : string :=
  match parts with
  | [] => ""
  | [x] => x
  | x :: rest => x ++ "," ++ join rest
  end.

(** [JSON.stringify(v)] with no replacer and no indentation; [None] is the
    result [undefined]. *)
Fixpoint JSON_stringify (v : value) : option string :=
  match v with
  | VUndefined => None
  | VNull => Some "null"
  | VBool b => Some (if b then "true" else "false")
  | VNum n => Some (if is_finite n then NumberToString n else "null")
  | VStr s => Some (QuoteJSONString s)
  | VArr items =>
      let fix elements (l : list value) : list string :=
        match l with
        | [] => []
        | x :: rest =>
            match JSON_stringify x with
            | Some t => t
            | None => "null"
            end :: elements rest
        end in
      Some ("[" ++ join (elements items) ++ "]")
  | VObj fields =>
      let fix members (l : list (string * value)) : list string :=
        match l with
        | [] => []
        | (k, x) :: rest =>
            match JSON_stringify x with
            | Some t => (QuoteJSONString k ++ ":" ++ t) :: members rest
            | None => members rest
            end
        end in
      Some ("{" ++ join (members fields) ++ "}")
  end.

(** [x === y] on two results of [JSON.stringify]. *)
Definition same_text (x y : option string) : bool :=
  match x, y with
  | Some a, Some b => String.eqb a b
  | None, None => true
  | _, _ => false
  end.

(** [`${x}`] of a result of [JSON.stringify]. *)
Definition template (x : option string) : string :=
  match x with
  | Some t => t
  | None => "undefined"
  end.

End Js.

Import Js.

(** ** The matcher *)

(** [ValidationResult] of [schema_matcher.ts]. *)
Record ValidationResult : Type := {
  success : bool;
  error : option string
}.

(** What a function passed as the expected value can reach besides its
    argument: the message, of which the argument is a part, and the public
    fields of the matcher. *)
Record Heap : Type := {
  heap_componentType : string;
  heap_propertyName : option string;
  heap_caseInsensitive : bool;
  heap_message : value
}.

(** The expected property value is typed [any]: a JSON-like value, or a
    function, which [valueMatches] calls as a predicate.  A function returns
    a value or throws.  [Predicate] is a function of the actual value alone;
    [Effectful] is a function that also reads and writes what it reaches. *)
Inductive expected : Type :=
| Literal (v : value)
| Predicate (f : value -> Completion value)
| Effectful (f : value -> Heap -> Completion value * Heap).

(** The fields of the class. *)
Record UpdateComponentsSchemaMatcher : Type := {
  componentType : string;
  propertyName : option string;
  propertyValue : expected;
  caseInsensitive : bool
}.

(** [new UpdateComponentsSchemaMatcher(...)]: the last three arguments are
    optional, and [caseInsensitive] defaults to [false]. *)
Definition constructor (componentType : string) (propertyName : option string)
    (propertyValue : option expected) (caseInsensitive : option bool)
  : UpdateComponentsSchemaMatcher :=
  {| componentType := componentType;
     propertyName := propertyName;
     propertyValue := match propertyValue with Some e => e | None => Literal VUndefined end;
     caseInsensitive := match caseInsensitive with Some b => b | None => false end |}.

(** *** The monad of the methods

    A method runs on a store, the matcher object [this] and the message its
    caller passes, and returns or throws, leaving a store. *)

Record Store : Type := {
  this : UpdateComponentsSchemaMatcher;
  message : value
}.

Definition M (A : Type) : Type := Store -> Completion A * Store.

Definition ret {A : Type} (a : A) : M A := fun st => (Normal a, st).

Definition bind {A B : Type} (c : M A) (k : A -> M B) : M B :=
  fun st =>
    match c st with
    | (Normal a, st') => k a st'
    | (Throw e, st') => (Throw e, st')
    end.

(** A read of the store, [this.f] or the argument. *)
Definition read {A : Type} (f : Store -> A) : M A := fun st => (Normal (f st), st).

(** An assignment to the store. *)
Definition assign (f : Store -> Store) : M unit := fun st => (Normal tt, f st).

(** A step of the run time, which returns or throws. *)
Definition lift {A : Type} (c : Completion A) : M A := fun st => (c, st).

(** What a function called by a method reaches of the store, and the store
    after the call: the function has no way to the field [propertyValue],
    which holds it. *)
Definition heap_of (st : Store) : Heap :=
  {| heap_componentType := componentType (this st);
     heap_propertyName := propertyName (this st);
     heap_caseInsensitive := caseInsensitive (this st);
     heap_message := message st |}.

Definition store_with (st : Store) (h : Heap) : Store :=
  {| this := {| componentType := heap_componentType h;
                propertyName := heap_propertyName h;
                propertyValue := propertyValue (this st);
                caseInsensitive := heap_caseInsensitive h |};
     message := heap_message h |}.

(** [f(v)] for a function of the caller: it runs on the store, and what it
    wrote stays. *)
Definition call (f : value -> Heap -> Completion value * Heap) (v : value) : M value :=
  fun st =>
    match f v (heap_of st) with
    | (r, h) => (r, store_with st h)
    end.

Declare Scope js_scope.
Delimit Scope js_scope with js.
Notation "x <- c ;; k" := (bind c (fun x => k))
  (at level 61, c at next level, right associativity) : js_scope.
Local Open Scope js_scope.

Definition result_of {A : Type} (r : Completion A * Store) : Completion A := fst r.
Definition store_of {A : Type} (r : Completion A * Store) : Store := snd r.

(** [a && b], where [b] is evaluated only if [a] holds. *)
Definition and_then (a : bool) (b : M bool) : M bool :=
  if a then b else ret false.

(** [properties[this.propertyName]]: the key an optional name reads. *)
Definition property_key (name : option string) : string :=
  match name with
  | Some s => s
  | None => "undefined"
  end.

(** ToBoolean of an optional string. *)
Definition configured (name : option string) : bool :=
  match name with
  | Some s => negb (String.eqb s "")
  | None => false
  end.

(** [typeof e === "function"] and [e === undefined] on an expected value. *)
Definition expected_undefined (e : expected) : bool :=
  match e with
  | Literal v => is_undefined v
  | Predicate _ | Effectful _ => false
  end.

Definition stringify_expected (e : expected) : option string :=
  match e with
  | Literal v => JSON_stringify v
  | Predicate _ | Effectful _ => None
  end.

Section Fields.
Context {B : Type} (f : value -> B).

(** The own property [key] of an object, with [f] of it. *)
Fixpoint field_with (key : string) (fields : list (string * value))
  : option (value * B) :=
  match fields with
  | [] => None
  | (k, v) :: rest =>
      if String.eqb k key then Some (v, f v) else field_with key rest
  end.
End Fields.

(** [valueMatches(actualValue, expectedValue)] (lines 135-197).

    The recursion is on [actualValue]: on the items of an array and on the
    [label] and [value] of an item.  [field_with] reads such a property of
    an item that is an object, and an item that is an array has none. *)
Fixpoint valueMatches (actualValue : value) (expectedValue : expected)
  {struct actualValue} : M value :=
  if is_null actualValue || is_undefined actualValue then ret (VBool false)
  else
    let compareStrings (s1 s2 : string) : M bool :=
      ci <- read (fun st => caseInsensitive (this st)) ;;
      ret (if ci then String.eqb (toLowerCase s1) (toLowerCase s2)
           else String.eqb s1 s2) in
    match expectedValue with
    | Predicate f => lift (f actualValue)
    | Effectful f => call f actualValue
    | Literal e =>
        match actualValue, e with
        | VStr a, VStr b => r <- compareStrings a b ;; ret (VBool r)
        | VNum a, VNum b => ret (VBool (PrimFloat.eqb a b))
        | VBool a, VBool b => ret (VBool (Bool.eqb a b))
        | _, _ =>
            binding <-
              and_then (String.eqb (typeof actualValue) "object" && negb (isArray actualValue))
                (path <- lift (Get actualValue "path") ;; ret (truthy path)) ;;
            if binding then ret (VBool false)
            else
              found <-
                match actualValue with
                | VArr items =>
                    let property (key : string) (item : value) : M bool :=
                      match item with
                      | VObj fields =>
                          match field_with (fun v => valueMatches v expectedValue) key fields with
                          | Some (v, matches) =>
                              and_then (truthy v) (r <- matches ;; ret (truthy r))
                          | None => ret false
                          end
                      | _ => ret false
                      end in
                    (fix each (items : list value) : M bool :=
                       match items with
                       | [] => ret false
                       | item :: rest =>
                           direct <- valueMatches item expectedValue ;;
                           if truthy direct then ret true
                           else
                             label <-
                               and_then (String.eqb (typeof item) "object" && negb (is_null item))
                                 (property "label" item) ;;
                             if label then ret true
                             else
                               value <-
                                 and_then (String.eqb (typeof item) "object" && negb (is_null item))
                                   (property "value" item) ;;
                               if value then ret true else each rest
                       end) items
                | _ => ret false
                end ;;
              if found then ret (VBool true)
              else ret (VBool (same_text (JSON_stringify actualValue) (JSON_stringify e)))
        end
    end.

(** [Array.prototype.find] and [Array.prototype.filter], the callback
    running in the monad. *)
Fixpoint find (callback : value -> M bool) (items : list value) : M value :=
  match items with
  | [] => ret VUndefined
  | c :: rest =>
      hit <- callback c ;;
      if hit then ret c else find callback rest
  end.

Fixpoint filter (callback : value -> M bool) (items : list value) : M (list value) :=
  match items with
  | [] => ret []
  | c :: rest =>
      keep <- callback c ;;
      kept <- filter callback rest ;;
      ret (if keep then c :: kept else kept)
  end.

(** [getComponentById(components, id)] (lines 49-51). *)
Definition getComponentById (components : list value) (id : value) : M value :=
  find (fun c => i <- lift (Get c "id") ;; ret (strict_equal i id)) components.

(** The callback of the filter of line 69:
    [c.props && c.props.component === this.componentType]. *)
Definition is_matching (c : value) : M bool :=
  props <- lift (Get c "props") ;;
  and_then (truthy props)
    (type <- lift (Get props "component") ;;
     ct <- read (fun st => componentType (this st)) ;;
     ret (strict_equal type (VStr ct))).

Definition failure (text : string) : ValidationResult :=
  {| success := false; error := Some text |}.

Definition succeeded : ValidationResult :=
  {| success := true; error := None |}.

(** The body of the loop of line 84 for one component: [Some] result where
    it returns from [validate], [None] where it goes on. *)
Definition check_component (components : list value) (component : value)
  : M (option ValidationResult) :=
  properties <- lift (Get component "props") ;;
  if truthy properties then
    name <- read (fun st => propertyName (this st)) ;;
    direct <- lift (Get properties (property_key name)) ;;
    returned <-
      (if negb (is_undefined direct) then
         expectedValue <- read (fun st => propertyValue (this st)) ;;
         if expected_undefined expectedValue then ret (Some succeeded)
         else
           name <- read (fun st => propertyName (this st)) ;;
           actualValue <- lift (Get properties (property_key name)) ;;
           expectedValue <- read (fun st => propertyValue (this st)) ;;
           r <- valueMatches actualValue expectedValue ;;
           ret (if truthy r then Some succeeded else None)
       else ret None) ;;
    match returned with
    | Some r => ret (Some r)
    | None =>
        ct <- read (fun st => componentType (this st)) ;;
        button <-
          and_then (String.eqb ct "Button")
            (name <- read (fun st => propertyName (this st)) ;;
             and_then (strict_equal (match name with Some s => VStr s | None => VUndefined end)
                                    (VStr "label"))
               (child <- lift (Get properties "child") ;; ret (truthy child))) ;;
        if button then
          child <- lift (Get properties "child") ;;
          childComponent <- getComponentById components child ;;
          text <-
            and_then (truthy childComponent)
              (props <- lift (Get childComponent "props") ;;
               and_then (truthy props)
                 (type <- lift (Get props "component") ;;
                  ret (strict_equal type (VStr "Text")))) ;;
          if text then
            props <- lift (Get childComponent "props") ;;
            textValue <- lift (Get props "text") ;;
            expectedValue <- read (fun st => propertyValue (this st)) ;;
            r <- valueMatches textValue expectedValue ;;
            ret (if truthy r then Some succeeded else None)
          else ret None
        else ret None
    end
  else ret None.

(** [for (const component of matchingComponents)]. *)
Fixpoint for_of (body : value -> M (option ValidationResult)) (items : list value)
  : M (option ValidationResult) :=
  match items with
  | [] => ret None
  | component :: rest =>
      returned <- body component ;;
      match returned with
      | Some r => ret (Some r)
      | None => for_of body rest
      end
  end.

(** [validate(schema)] (lines 53-133); [schema] is the message of the
    store. *)
Definition validate : M ValidationResult :=
  schema <- read message ;;
  updateComponents <- lift (Get schema "updateComponents") ;;
  if negb (truthy updateComponents) then
    ret (failure "Expected a 'updateComponents' message but found none.")
  else
    updateComponents <- lift (Get schema "updateComponents") ;;
    components <- lift (Get updateComponents "components") ;;
    match components with
    | VArr components =>
        matchingComponents <- filter is_matching components ;;
        if Nat.eqb (List.length matchingComponents) 0 then
          ct <- read (fun st => componentType (this st)) ;;
          ret (failure ("Failed to find component of type '" ++ ct ++ "'."))
        else
          name <- read (fun st => propertyName (this st)) ;;
          if negb (configured name) then ret succeeded
          else
            returned <- for_of (check_component components) matchingComponents ;;
            match returned with
            | Some r => ret r
            | None =>
                expectedValue <- read (fun st => propertyValue (this st)) ;;
                ct <- read (fun st => componentType (this st)) ;;
                name <- read (fun st => propertyName (this st)) ;;
                if negb (expected_undefined expectedValue) then
                  ret (failure ("Failed to find component of type '" ++ ct
                                ++ "' with property '" ++ property_key name
                                ++ "' containing value "
                                ++ template (stringify_expected expectedValue) ++ "."))
                else
                  ret (failure ("Failed to find component of type '" ++ ct
                                ++ "' with property '" ++ property_key name ++ "'."))
            end
    | _ =>
        ret (failure "'updateComponents' message does not contain a 'components' array.")
    end.

(** A call [matcher.validate(schema)]. *)
Definition call_validate (matcher : UpdateComponentsSchemaMatcher) (schema : value)
  : Completion ValidationResult * Store :=
  validate {| this := matcher; message := schema |}.

(** ** The vocabulary of the statements *)

(** Induction on a value, through the items of an array and the properties
    of an object. *)
Section ValueInd.
Variable P : value -> Prop.
Hypothesis Hundefined : P VUndefined.
Hypothesis Hnull : P VNull.
Hypothesis Hbool : forall b, P (VBool b).
Hypothesis Hnum : forall n, P (VNum n).
Hypothesis Hstr : forall s, P (VStr s).
Hypothesis Harr : forall items, Forall P items -> P (VArr items).
Hypothesis Hobj : forall fields, Forall (fun kv => P (snd kv)) fields -> P (VObj fields).

Fixpoint value_ind (v : value) : P v :=
  match v with
  | VUndefined => Hundefined
  | VNull => Hnull
  | VBool b => Hbool b
  | VNum n => Hnum n
  | VStr s => Hstr s
  | VArr items =>
      Harr items
        ((fix all (l : list value) : Forall P l :=
            match l with
            | [] => Forall_nil P
            | x :: rest => Forall_cons x (value_ind x) (all rest)
            end) items)
  | VObj fields =>
      Hobj fields
        ((fix all (l : list (string * value)) : Forall (fun kv => P (snd kv)) l :=
            match l with
            | [] => Forall_nil _
            | kv :: rest => Forall_cons kv (value_ind (snd kv)) (all rest)
            end) fields)
  end.
End ValueInd.

(** A computation that leaves the store as it found it. *)
Definition preserves {A : Type} (c : M A) : Prop :=
  forall st, store_of (c st) = st.

(** What [valueMatches] does with the property [key] of an item. *)
Definition property_of (expectedValue : expected) (key : string) (item : value) : M bool :=
  match item with
  | VObj fields =>
      match field_with (fun v => valueMatches v expectedValue) key fields with
      | Some (v, matches) => and_then (truthy v) (r <- matches ;; ret (truthy r))
      | None => ret false
      end
  | _ => ret false
  end.

(** A property name that is neither [length] nor an index. *)
Definition named (key : string) : bool :=
  negb (String.eqb key "length") &&
  match key with
  | EmptyString => true
  | String c _ => negb ((48 <=? nat_of_ascii c)%nat && (nat_of_ascii c <=? 57)%nat)
  end.

(** [v === null || v === undefined] *)
Definition nullish (v : value) : bool := is_null v || is_undefined v.

(** [c] returns at [st] a value that satisfies [Q], and leaves [st]. *)
Definition returns_at {A : Type} (st : Store) (Q : A -> Prop) (c : M A) : Prop :=
  exists a, c st = (Normal a, st) /\ Q a.

(** A predicate that never throws; a literal asks for nothing, and a
    function that reaches the store returns and leaves it as it was. *)
Definition never_throws (e : expected) : Prop :=
  match e with
  | Literal _ => True
  | Predicate f => forall v, exists r, f v = Normal r
  | Effectful f => forall v h, exists r, f v h = (Normal r, h)
  end.

(** An expected value whose call writes nothing: a literal, a function of
    the actual value alone, and a function that leaves what it reaches. *)
Definition writes_nothing (e : expected) : Prop :=
  match e with
  | Literal _ | Predicate _ => True
  | Effectful f => forall v h, snd (f v h) = h
  end.

(** The condition that asks for nothing. *)
Definition anything {A : Type} : A -> Prop := fun _ => True.

(** The loop of line 177 over the items of an array. *)
Section EachItem.
Variable expectedValue : expected.

Fixpoint each_item (items : list value) : M bool :=
  match items with
  | [] => ret false
  | item :: rest =>
      direct <- valueMatches item expectedValue ;;
      if truthy direct then ret true
      else
        label <-
          and_then (String.eqb (typeof item) "object" && negb (is_null item))
            (property_of expectedValue "label" item) ;;
        if label then ret true
        else
          value <-
            and_then (String.eqb (typeof item) "object" && negb (is_null item))
              (property_of expectedValue "value" item) ;;
          if value then ret true else each_item rest
  end.
End EachItem.

(** What the callback of the filter answers on a component that is neither
    [null] nor [undefined]. *)
Definition matches_type (ct : string) (c : value) : bool :=
  match Get c "props" with
  | Normal props =>
      truthy props &&
      match Get props "component" with
      | Normal type => strict_equal type (VStr ct)
      | Throw _ => false
      end
  | Throw _ => false
  end.

(** The store with the flag [caseInsensitive] set to [b]. *)
Definition with_flag (st : Store) (b : bool) : Store :=
  {| this := {| componentType := componentType (this st);
                propertyName := propertyName (this st);
                propertyValue := propertyValue (this st);
                caseInsensitive := b |};
     message := message st |}.

(** What one round of the loop gives: it goes on, or [validate] succeeds. *)
Definition round (r : option ValidationResult) : Prop :=
  r = None \/ r = Some succeeded.

(** The errors of [validate]. *)
Definition errors (matcher : UpdateComponentsSchemaMatcher) : list string :=
  let ct := componentType matcher in
  let name := property_key (propertyName matcher) in
  [ "Expected a 'updateComponents' message but found none.";
    "'updateComponents' message does not contain a 'components' array.";
    "Failed to find component of type '" ++ ct ++ "'.";
    "Failed to find component of type '" ++ ct ++ "' with property '" ++ name
      ++ "' containing value " ++ template (stringify_expected (propertyValue matcher)) ++ ".";
    "Failed to find component of type '" ++ ct ++ "' with property '" ++ name ++ "'." ].

(** A result of [validate]: a success, or a failure with one of its
    errors. *)
Definition outcome (matcher : UpdateComponentsSchemaMatcher) (r : ValidationResult) : Prop :=
  r = succeeded \/
  exists text, r = {| success := false; error := Some text |} /\ In text (errors matcher).

(** [get description()] (lines 34-47). *)
Definition description : M string :=
  ct <- read (fun st => componentType (this st)) ;;
  let desc := "Component '" ++ ct ++ "'" in
  name <- read (fun st => propertyName (this st)) ;;
  if configured name then
    name <- read (fun st => propertyName (this st)) ;;
    let desc := desc ++ " with property '" ++ property_key name ++ "'" in
    expectedValue <- read (fun st => propertyValue (this st)) ;;
    if negb (expected_undefined expectedValue) then
      expectedValue <- read (fun st => propertyValue (this st)) ;;
      match expectedValue with
      | Predicate _ | Effectful _ => ret (desc ++ " matching predicate")
      | Literal v => ret (desc ++ " matching " ++ template (JSON_stringify v))
      end
    else ret desc
  else ret desc.

(** What [valueMatches] answers against the literal [e] under the flag
    [ci], as a function of the actual value. *)
Section LiteralMatch.
Variables (ci : bool) (e : value).

Definition compare_strings (s1 s2 : string) : bool :=
  if ci then String.eqb (toLowerCase s1) (toLowerCase s2) else String.eqb s1 s2.

Fixpoint literal_match (a : value) : bool :=
  match a with
  | VUndefined | VNull => false
  | VStr x =>
      match e with
      | VStr y => compare_strings x y
      | _ => same_text (JSON_stringify (VStr x)) (JSON_stringify e)
      end
  | VNum x =>
      match e with
      | VNum y => PrimFloat.eqb x y
      | _ => same_text (JSON_stringify (VNum x)) (JSON_stringify e)
      end
  | VBool x =>
      match e with
      | VBool y => Bool.eqb x y
      | _ => same_text (JSON_stringify (VBool x)) (JSON_stringify e)
      end
  | VObj fields =>
      if truthy (own fields "path") then false
      else same_text (JSON_stringify (VObj fields)) (JSON_stringify e)
  | VArr items =>
      let property (key : string) (item : value) : bool :=
        match item with
        | VObj fields =>
            match field_with literal_match key fields with
            | Some (v, matches) => truthy v && matches
            | None => false
            end
        | _ => false
        end in
      (fix each (l : list value) : bool :=
         match l with
         | [] => false
         | item :: rest =>
             literal_match item || property "label" item || property "value" item
             || each rest
         end) items
      || same_text (JSON_stringify (VArr items)) (JSON_stringify e)
  end.

(** An item of an array matches: itself, or its truthy [label] or
    [value]. *)
Definition item_match (item : value) : bool :=
  literal_match item
  || match item with
     | VObj fields =>
         (truthy (own fields "label") && literal_match (own fields "label"))
         || (truthy (own fields "value") && literal_match (own fields "value"))
     | _ => false
     end.
End LiteralMatch.

(** A component has the identifier [id]: [c.id === id]. *)
Definition has_id (id : value) (c : value) : bool :=
  match Get c "id" with
  | Normal i => strict_equal i id
  | Throw _ => false
  end.

(** [v.key] on a value that is neither [null] nor [undefined]. *)
Definition prop (v : value) (key : string) : value :=
  match Get v key with
  | Normal x => x
  | Throw _ => VUndefined
  end.

(** The first component with the identifier, or [undefined]. *)
Definition resolve (components : list value) (id : value) : value :=
  match List.find (has_id id) components with
  | Some c => c
  | None => VUndefined
  end.

(** [valueMatches] holds of [v] and the expected value of the matcher. *)
Definition accepted (st : Store) (v : value) : bool :=
  match result_of (valueMatches v (propertyValue (this st)) st) with
  | Normal r => truthy r
  | Throw _ => false
  end.

(** The first test of the loop of [validate] (lines 88-96): the
    component has the property, and its value is accepted where an expected
    value is configured. *)
Definition direct_hit (st : Store) (c : value) : bool :=
  let properties := prop c "props" in
  let v := prop properties (property_key (propertyName (this st))) in
  truthy properties && negb (is_undefined v)
  && (expected_undefined (propertyValue (this st)) || accepted st v).

(** The second test (lines 99-118): for a Button and the label, the
    text of the child that is a Text is accepted. *)
Definition child_hit (st : Store) (components : list value) (c : value) : bool :=
  let properties := prop c "props" in
  let child := resolve components (prop properties "child") in
  truthy properties
  && String.eqb (componentType (this st)) "Button"
  && match propertyName (this st) with
     | Some name => String.eqb name "label"
     | None => false
     end
  && truthy (prop properties "child")
  && truthy child
  && truthy (prop child "props")
  && strict_equal (prop (prop child "props") "component") (VStr "Text")
  && accepted st (prop (prop child "props") "text").

Definition first_char (t : option string) : option ascii :=
  match t with
  | Some (String c _) => Some c
  | _ => None
  end.

Definition is_digit (c : ascii) : bool :=
  (48 <=? nat_of_ascii c)%nat && (nat_of_ascii c <=? 57)%nat.

(** What [validate] returns on an array of components none of which is
    [null] or [undefined], with an expected value that does not throw. *)
Definition verdict (st : Store) (components : list value) : ValidationResult :=
  let ct := componentType (this st) in
  let name := propertyName (this st) in
  let matchingComponents := List.filter (matches_type ct) components in
  if Nat.eqb (List.length matchingComponents) 0 then
    failure ("Failed to find component of type '" ++ ct ++ "'.")
  else if negb (configured name) then succeeded
  else if existsb (fun c => direct_hit st c || child_hit st components c) matchingComponents
  then succeeded
  else if negb (expected_undefined (propertyValue (this st))) then
    failure ("Failed to find component of type '" ++ ct
             ++ "' with property '" ++ property_key name
             ++ "' containing value "
             ++ template (stringify_expected (propertyValue (this st))) ++ ".")
  else
    failure ("Failed to find component of type '" ++ ct
             ++ "' with property '" ++ property_key name ++ "'.").


Definition is_upper (c : ascii) : bool :=
  (65 <=? nat_of_ascii c)%nat && (nat_of_ascii c <=? 90)%nat.

Definition is_lower (c : ascii) : bool :=
  (97 <=? nat_of_ascii c)%nat && (nat_of_ascii c <=? 122)%nat.

(** Two characters that are one letter in either case, or one character. *)
Definition same_letter (c1 c2 : ascii) : bool :=
  Ascii.eqb c1 c2
  || (is_upper c1 && is_lower c2 && (nat_of_ascii c2 =? nat_of_ascii c1 + 32)%nat)
  || (is_lower c1 && is_upper c2 && (nat_of_ascii c1 =? nat_of_ascii c2 + 32)%nat).

(** Two texts that differ in the case of letters at most: of one length,
    character by character the same letter. *)
Fixpoint equal_ignoring_case (s t : string) : bool :=
  match s, t with
  | EmptyString, EmptyString => true
  | String a s', String b t' => same_letter a b && equal_ignoring_case s' t'
  | _, _ => false
  end.

(** The names every object inherits from [Object.prototype], which a read
    of an own property does not find. *)
Definition inherited (name : string) : bool :=
  existsb (String.eqb name)
    ["constructor"; "hasOwnProperty"; "isPrototypeOf"; "propertyIsEnumerable";
     "toLocaleString"; "toString"; "valueOf"; "__proto__";
     "__defineGetter__"; "__defineSetter__"; "__lookupGetter__"; "__lookupSetter__"].

(** ** Lemmas on the run time and on the monad *)

(** The texts of some numbers, as [String(x)] gives them: a half, a
    hundred, ten to the 21, a tenth, two to the 60, the least positive
    number, and the number next below ten to the 23. *)
Example NumberToString_samples :
  map NumberToString
    [0.5; 100; 1e21; 0x1.999999999999ap-4; 0x1p60; 0x1p-1074; 0x1.52d02c7e14af6p76]%float
  = ["0.5"; "100"; "1e+21"; "0.1"; "1152921504606847000"; "5e-324"; "1e+23"].
Proof. vm_compute. reflexivity. Qed.

Example JSON_stringify_sample :
  JSON_stringify
    (VObj [("label", VStr "A"); ("skipped", VUndefined);
           ("value", VArr [VNum 1.5%float; VNull; VUndefined; VBool true])])
  = Some ("{" ++ double_quote ++ "label" ++ double_quote ++ ":"
              ++ double_quote ++ "A" ++ double_quote ++ ","
              ++ double_quote ++ "value" ++ double_quote ++ ":[1.5,null,null,true]}").
Proof. vm_compute. reflexivity. Qed.

Lemma preserves_ret {A : Type} (a : A) : preserves (ret a).
Proof. intros st; reflexivity. Qed.

Lemma preserves_read {A : Type} (f : Store -> A) : preserves (read f).
Proof. intros st; reflexivity. Qed.

Lemma preserves_lift {A : Type} (c : Completion A) : preserves (lift c).
Proof. intros st; reflexivity. Qed.

Lemma preserves_bind {A B : Type} (c : M A) (k : A -> M B) :
  preserves c -> (forall a, preserves (k a)) -> preserves (bind c k).
Proof.
  intros Hc Hk st. unfold bind. specialize (Hc st).
  destruct (c st) as [[a | e] st']; unfold store_of in *; simpl in *; subst.
  - apply Hk.
  - reflexivity.
Qed.

Lemma preserves_and_then (a : bool) (b : M bool) :
  preserves b -> preserves (and_then a b).
Proof. destruct a; simpl; auto using preserves_ret. Qed.

Lemma preserves_if {A : Type} (b : bool) (c1 c2 : M A) :
  preserves c1 -> preserves c2 -> preserves (if b then c1 else c2).
Proof. destruct b; auto. Qed.

Ltac frame :=
  repeat first
    [ apply preserves_ret | apply preserves_read | apply preserves_lift
    | apply preserves_bind; [ | intros ? ]
    | apply preserves_and_then
    | apply preserves_if
    | match goal with |- preserves (match ?x with _ => _ end) => destruct x end ].

Lemma field_with_own {B : Type} (f : value -> B) key fields v b :
  field_with f key fields = Some (v, b) ->
  b = f v /\ own fields key = v /\ In (key, v) fields.
Proof.
  induction fields as [| [k x] rest IH]; simpl; [discriminate |].
  destruct (String.eqb k key) eqn:E.
  - intros [= <- <-]. apply String.eqb_eq in E; subst. auto.
  - intros H. destruct (IH H) as (? & ? & ?). auto.
Qed.

(** Induction that also covers the properties of the items of an array,
    which [valueMatches] visits. *)
Lemma value_deep_ind (P : value -> Prop) :
  P VUndefined -> P VNull -> (forall b, P (VBool b)) -> (forall n, P (VNum n)) ->
  (forall s, P (VStr s)) ->
  (forall items,
      Forall P items ->
      Forall (fun item => forall fields, item = VObj fields ->
                Forall (fun kv => P (snd kv)) fields) items ->
      P (VArr items)) ->
  (forall fields, Forall (fun kv => P (snd kv)) fields -> P (VObj fields)) ->
  forall v, P v.
Proof.
  intros Hu Hn Hb Hnum Hs Harr Hobj v.
  enough (P v /\ (forall fields, v = VObj fields ->
                    Forall (fun kv => P (snd kv)) fields)) by tauto.
  induction v using value_ind; try (split; [solve [auto] | discriminate]).
  - split; [| discriminate].
    apply Harr; eapply Forall_impl; try eassumption; simpl; tauto.
  - assert (Forall (fun kv => P (snd kv)) fields)
      by (eapply Forall_impl; try eassumption; simpl; tauto).
    split; [auto |]. intros ? [= <-]. assumption.
Qed.

Lemma property_of_preserves expectedValue key item :
  (forall fields, item = VObj fields ->
     Forall (fun kv => preserves (valueMatches (snd kv) expectedValue)) fields) ->
  preserves (property_of expectedValue key item).
Proof.
  intros H. destruct item; try apply preserves_ret.
  unfold property_of.
  destruct (field_with _ key fields) as [[v m] |] eqn:E; [| apply preserves_ret].
  apply field_with_own in E. destruct E as (-> & _ & Hin).
  specialize (H _ eq_refl). rewrite Forall_forall in H. specialize (H _ Hin).
  frame. exact H.
Qed.

Lemma store_with_heap_of st : store_with st (heap_of st) = st.
Proof. destruct st as [[ct pn pv ci] m]. reflexivity. Qed.

Lemma call_preserves f v :
  (forall v h, snd (f v h) = h) -> preserves (call f v).
Proof.
  intros H st. unfold call, store_of. specialize (H v (heap_of st)).
  destruct (f v (heap_of st)) as [r h]. simpl in *. subst. apply store_with_heap_of.
Qed.

Lemma valueMatches_preserves actualValue expectedValue :
  writes_nothing expectedValue ->
  preserves (valueMatches actualValue expectedValue).
Proof.
  intros Hw. destruct expectedValue as [e | f | g].
  2:{ destruct actualValue; simpl; frame. }
  2:{ destruct actualValue; simpl; try apply preserves_ret; apply call_preserves, Hw. }
  clear Hw.
  induction actualValue using value_deep_ind;
    try (destruct e; simpl; frame; fail).
  assert (Heach : preserves
    ((fix each (items : list value) : M bool :=
        match items with
        | [] => ret false
        | item :: rest =>
            direct <- valueMatches item (Literal e) ;;
            if truthy direct then ret true
            else
              label <-
                and_then (String.eqb (typeof item) "object" && negb (is_null item))
                  (property_of (Literal e) "label" item) ;;
              if label then ret true
              else
                value <-
                  and_then (String.eqb (typeof item) "object" && negb (is_null item))
                    (property_of (Literal e) "value" item) ;;
                if value then ret true else each rest
        end) items)).
  { induction items as [| item rest IH]; [apply preserves_ret |].
    inversion H; subst. inversion H0; subst.
    frame; auto using property_of_preserves. }
  destruct e; simpl; frame; exact Heach.
Qed.

Lemma index_not_named z key : named key = true -> String.eqb (string_of_nonneg z) key = false.
Proof.
  intros H. apply String.eqb_neq. intros <-.
  unfold named in H. apply andb_true_iff in H. destruct H as [_ H].
  unfold string_of_nonneg in H.
  destruct (N.to_uint (Z.to_N z)); simpl in H; discriminate.
Qed.

Lemma element_named {A : Type} key (l : list A) i : named key = true -> element i key l = None.
Proof.
  intros H. revert i. induction l as [| x rest IH]; intros i; simpl; [reflexivity |].
  rewrite index_not_named by assumption. apply IH.
Qed.

(** Only an object has a named property. *)
Lemma Get_named v key x :
  named key = true -> Get v key = Normal x -> is_undefined x = false ->
  exists fields, v = VObj fields /\ own fields key = x.
Proof.
  intros Hk HG Hx.
  assert (String.eqb key "length" = false) as Hlen
    by (unfold named in Hk; destruct (String.eqb key "length"); [discriminate | reflexivity]).
  destruct v; simpl in HG; try discriminate;
    try (injection HG as <-; discriminate).
  - rewrite Hlen, element_named in HG by assumption.
    injection HG as <-; discriminate.
  - rewrite Hlen, element_named in HG by assumption.
    injection HG as <-; discriminate.
  - injection HG as <-. eauto.
Qed.

Lemma Get_returns v key : nullish v = false -> exists x, Get v key = Normal x.
Proof.
  destruct v; simpl; try discriminate; intros _; eauto.
  - destruct (String.eqb key "length"); eauto. destruct (element 0 key _); eauto.
  - destruct (String.eqb key "length"); eauto. destruct (element 0 key _); eauto.
Qed.

Lemma truthy_not_nullish v : truthy v = true -> nullish v = false.
Proof. destruct v; simpl; auto; discriminate. Qed.

Lemma returns_ret {A : Type} st (Q : A -> Prop) a : Q a -> returns_at st Q (ret a).
Proof. intros H; exists a; auto. Qed.

Lemma returns_read {A : Type} st (Q : A -> Prop) (f : Store -> A) :
  Q (f st) -> returns_at st Q (read f).
Proof. intros H; exists (f st); auto. Qed.

Lemma returns_lift {A : Type} st (Q : A -> Prop) (c : Completion A) a :
  c = Normal a -> Q a -> returns_at st Q (lift c).
Proof. intros -> H; exists a; auto. Qed.

Lemma returns_bind {A B : Type} st (P : A -> Prop) (Q : B -> Prop) c (k : A -> M B) :
  returns_at st P c -> (forall a, P a -> returns_at st Q (k a)) ->
  returns_at st Q (bind c k).
Proof.
  intros (a & Hc & Ha) Hk. destruct (Hk a Ha) as (b & Hb & HQ).
  exists b. unfold bind. rewrite Hc. auto.
Qed.

Lemma returns_weaken {A : Type} st (P Q : A -> Prop) c :
  returns_at st P c -> (forall a, P a -> Q a) -> returns_at st Q c.
Proof. intros (a & Hc & Ha) H; exists a; auto. Qed.

Lemma returns_and_then st (a : bool) (b : M bool) :
  (a = true -> returns_at st (fun _ => True) b) ->
  returns_at st (fun _ => True) (and_then a b).
Proof. destruct a; simpl; intros H; [auto | apply returns_ret; exact I]. Qed.

Lemma returns_Get st v key :
  nullish v = false -> returns_at st (fun _ => True) (lift (Get v key)).
Proof.
  intros H. destruct (Get_returns v key H) as [x Hx].
  eapply returns_lift; eauto.
Qed.

Ltac returns :=
  repeat first
    [ apply returns_ret; exact I
    | apply returns_read; exact I
    | apply returns_Get; reflexivity
    | eapply (returns_bind _ anything); [ | intros ? _ ]
    | apply returns_and_then; intros ?
    | match goal with |- returns_at _ _ (if ?b then _ else _) => destruct b end ].

Lemma valueMatches_array items e :
  valueMatches (VArr items) (Literal e) =
  (found <- each_item (Literal e) items ;;
   if found then ret (VBool true)
   else ret (VBool (same_text (JSON_stringify (VArr items)) (JSON_stringify e)))).
Proof. destruct e; reflexivity. Qed.

Lemma property_of_returns st expectedValue key item :
  (forall fields, item = VObj fields ->
     Forall (fun kv => returns_at st anything (valueMatches (snd kv) expectedValue)) fields) ->
  returns_at st anything (property_of expectedValue key item).
Proof.
  intros H. destruct item; try (apply returns_ret; exact I).
  unfold property_of.
  destruct (field_with _ key fields) as [[v m] |] eqn:E; [| apply returns_ret; exact I].
  apply field_with_own in E. destruct E as (-> & _ & Hin).
  specialize (H _ eq_refl). rewrite Forall_forall in H. specialize (H _ Hin).
  returns. exact H.
Qed.

Lemma valueMatches_returns st actualValue expectedValue :
  never_throws expectedValue ->
  returns_at st anything (valueMatches actualValue expectedValue).
Proof.
  intros Hf. destruct expectedValue as [e | f | g].
  2:{ destruct actualValue; simpl; try (apply returns_ret; exact I);
        match goal with |- returns_at _ _ (lift (f ?v)) =>
          destruct (Hf v) as [r Hr]; eapply returns_lift; eauto; exact I end. }
  2:{ destruct actualValue; simpl; try (apply returns_ret; exact I);
        match goal with |- returns_at ?st _ (call g ?v) =>
          destruct (Hf v (heap_of st)) as [r Hr]; exists r; unfold call;
          rewrite Hr, store_with_heap_of; split; [reflexivity | exact I] end. }
  induction actualValue using value_deep_ind;
    try (destruct e; simpl; returns; fail).
  rewrite valueMatches_array.
  assert (Heach : returns_at st anything (each_item (Literal e) items)).
  { induction items as [| item rest IH]; [apply returns_ret; exact I |].
    inversion H; subst. inversion H0; subst. simpl.
    returns; auto using property_of_returns. }
  returns. exact Heach.
Qed.

Lemma is_matching_at st c :
  nullish c = false ->
  is_matching c st = (Normal (matches_type (componentType (this st)) c), st).
Proof.
  intros Hc. unfold is_matching, matches_type, bind, lift.
  destruct (Get_returns c "props" Hc) as [props ->].
  destruct (truthy props) eqn:Hp; [| reflexivity]. simpl.
  destruct (Get_returns props "component" (truthy_not_nullish _ Hp)) as [type ->].
  reflexivity.
Qed.

Lemma filter_at st items :
  Forall (fun c => nullish c = false) items ->
  filter is_matching items st =
  (Normal (List.filter (matches_type (componentType (this st))) items), st).
Proof.
  induction 1 as [| c rest Hc _ IH]; [reflexivity |].
  simpl. unfold bind at 1. rewrite is_matching_at by assumption.
  unfold bind at 1. rewrite IH. reflexivity.
Qed.

(** The callback answers on one component alone, and never reads the
    flag. *)
Lemma is_matching_flag st c b :
  result_of (is_matching c st) = result_of (is_matching c (with_flag st b)).
Proof.
  unfold is_matching, bind, lift, and_then, read, ret, result_of.
  destruct (Get c "props") as [props |]; [| reflexivity]. simpl.
  destruct (truthy props); [| reflexivity].
  destruct (Get props "component"); reflexivity.
Qed.

Lemma is_matching_preserves c : preserves (is_matching c).
Proof. unfold is_matching. frame. Qed.

Lemma filter_preserves callback items :
  (forall c, preserves (callback c)) -> preserves (filter callback items).
Proof. intros H. induction items; simpl; frame; auto. Qed.

Lemma find_preserves callback items :
  (forall c, preserves (callback c)) -> preserves (find callback items).
Proof. intros H. induction items; simpl; frame; auto. Qed.

Lemma for_of_preserves body items :
  (forall c, preserves (body c)) -> preserves (for_of body items).
Proof.
  intros H. induction items; simpl; frame; auto.
Qed.

Lemma getComponentById_preserves components id :
  preserves (getComponentById components id).
Proof. apply find_preserves. intros c. frame. Qed.

Lemma run_read_at {A B : Type} (f : Store -> A) (k : A -> M B) st :
  bind (read f) k st = k (f st) st.
Proof. reflexivity. Qed.

Lemma never_throws_writes_nothing e : never_throws e -> writes_nothing e.
Proof.
  destruct e as [v | f | g]; simpl; auto.
  intros H v h. destruct (H v h) as [r ->]. reflexivity.
Qed.

(** [c] leaves the store [st] as it found it. *)
Lemma preserves_at_bind {A B : Type} st (c : M A) (k : A -> M B) :
  store_of (c st) = st -> (forall a, store_of (k a st) = st) ->
  store_of (bind c k st) = st.
Proof.
  intros Hc Hk. unfold bind.
  destruct (c st) as [[a | e] st'] eqn:E; unfold store_of in *; simpl in *; subst.
  - apply Hk.
  - reflexivity.
Qed.

Lemma for_of_preserves_at st body items :
  (forall c, store_of (body c st) = st) -> store_of (for_of body items st) = st.
Proof.
  intros H. induction items as [| c rest IH]; [reflexivity |].
  cbn [for_of]. apply preserves_at_bind; [apply H |].
  intros [r |]; [reflexivity | exact IH].
Qed.

Ltac frame_at :=
  repeat first
    [ rewrite run_read_at
    | apply preserves_at_bind; [ | intros ? ]
    | match goal with |- store_of ((if ?b then _ else _) _) = _ => destruct b end
    | match goal with |- store_of ((match ?x with _ => _ end) _) = _ => destruct x end
    | match goal with |- store_of (and_then ?b _ _) = _ => destruct b; cbn [and_then] end
    | reflexivity ].

Lemma check_component_preserves components component st :
  writes_nothing (propertyValue (this st)) ->
  store_of (check_component components component st) = st.
Proof.
  intros Hw. unfold check_component.
  frame_at;
    try (apply valueMatches_preserves, Hw);
    try (apply getComponentById_preserves).
Qed.

Lemma validate_preserves st :
  writes_nothing (propertyValue (this st)) -> store_of (validate st) = st.
Proof.
  intros Hw. unfold validate.
  frame_at;
    try (apply (filter_preserves _ _ is_matching_preserves));
    try (apply for_of_preserves_at; intros c; apply check_component_preserves, Hw).
Qed.

Lemma run_preserves {A : Type} (c : M A) st :
  preserves c -> c st = (result_of (c st), st).
Proof.
  intros H. specialize (H st). unfold store_of, result_of in *.
  destruct (c st); simpl in *; congruence.
Qed.

Lemma filter_selected st items kept c :
  result_of (filter is_matching items st) = Normal kept ->
  In c kept -> is_matching c st = (Normal true, st).
Proof.
  revert kept. induction items as [| x rest IH]; intros kept; simpl.
  - intros [= <-] [].
  - unfold bind at 1. rewrite (run_preserves _ st (is_matching_preserves x)).
    destruct (result_of (is_matching x st)) as [keep |] eqn:Hx; [| discriminate].
    unfold bind at 1.
    rewrite (run_preserves _ st (filter_preserves _ rest is_matching_preserves)).
    destruct (result_of (filter is_matching rest st)) as [kept' |] eqn:Hr; [| discriminate].
    intros [= <-] Hin.
    destruct keep; [destruct Hin as [<- | Hin] |]; eauto.
    rewrite (run_preserves _ st (is_matching_preserves x)), Hx. reflexivity.
Qed.

Lemma filter_flag st items b :
  result_of (filter is_matching items st) =
  result_of (filter is_matching items (with_flag st b)).
Proof.
  induction items as [| x rest IH]; [reflexivity |].
  simpl. unfold bind.
  rewrite (run_preserves _ st (is_matching_preserves x)).
  rewrite (run_preserves _ (with_flag st b) (is_matching_preserves x)).
  rewrite <- (is_matching_flag st x b).
  destruct (result_of (is_matching x st)); [| reflexivity].
  rewrite (run_preserves _ st (filter_preserves _ rest is_matching_preserves)).
  rewrite (run_preserves _ (with_flag st b) (filter_preserves _ rest is_matching_preserves)).
  rewrite <- IH.
  destruct (result_of (filter is_matching rest st)); reflexivity.
Qed.

Lemma run_read {A B : Type} (f : Store -> A) (k : A -> M B) st :
  bind (read f) k st = k (f st) st.
Proof. reflexivity. Qed.

Lemma run_ret {A B : Type} (a : A) (k : A -> M B) st :
  bind (ret a) k st = k a st.
Proof. reflexivity. Qed.

Lemma run_bind {A B : Type} (c : M A) (k : A -> M B) st a :
  c st = (Normal a, st) -> bind c k st = k a st.
Proof. intros H. unfold bind. rewrite H. reflexivity. Qed.

Lemma run_Get {B : Type} v key x (k : value -> M B) st :
  Get v key = Normal x -> bind (lift (Get v key)) k st = k x st.
Proof. intros H. unfold bind, lift. rewrite H. reflexivity. Qed.

Lemma returns_bind_read {A B : Type} st (Q : B -> Prop) (f : Store -> A) (k : A -> M B) :
  returns_at st Q (k (f st)) -> returns_at st Q (bind (read f) k).
Proof. intros H; exact H. Qed.

Lemma returns_bind_Get {B : Type} st (Q : B -> Prop) v key (k : value -> M B) :
  nullish v = false ->
  (forall x, Get v key = Normal x -> returns_at st Q (k x)) ->
  returns_at st Q (bind (lift (Get v key)) k).
Proof.
  intros Hv Hk. destruct (Get_returns v key Hv) as [x Hx].
  destruct (Hk x Hx) as (b & Hb & HQ). exists b.
  unfold bind, lift. rewrite Hx. auto.
Qed.

Lemma find_returns st callback items :
  Forall (fun c => returns_at st anything (callback c)) items ->
  returns_at st (fun r => r = VUndefined \/ In r items) (find callback items).
Proof.
  induction 1 as [| c rest Hc _ IH]; simpl.
  - apply returns_ret. auto.
  - eapply returns_bind; [exact Hc |]. intros hit _. destruct hit.
    + apply returns_ret. auto.
    + eapply returns_weaken; [exact IH |]. simpl. tauto.
Qed.

Lemma getComponentById_returns st components id :
  Forall (fun c => nullish c = false) components ->
  returns_at st (fun r => r = VUndefined \/ In r components)
    (getComponentById components id).
Proof.
  intros H. apply find_returns. eapply Forall_impl; [| exact H].
  intros c Hc. simpl in Hc. apply returns_bind_Get; [exact Hc |].
  intros; apply returns_ret; exact I.
Qed.

Ltac round :=
  match goal with
  | |- returns_at _ round (ret (if ?b then _ else _)) =>
      destruct b; apply returns_ret; unfold round; auto
  | |- returns_at _ round (ret _) => apply returns_ret; unfold round; auto
  end.

Lemma child_is_text_returns st childComponent :
  returns_at st
    (fun b => b = true ->
       exists props, Get childComponent "props" = Normal props /\ truthy props = true)
    (and_then (truthy childComponent)
       (props <- lift (Get childComponent "props") ;;
        and_then (truthy props)
          (type <- lift (Get props "component") ;;
           ret (strict_equal type (VStr "Text"))))).
Proof.
  destruct (truthy childComponent) eqn:Hchild; simpl;
    [| apply returns_ret; discriminate].
  apply returns_bind_Get; [auto using truthy_not_nullish |]. intros props Hprops.
  destruct (truthy props) eqn:Hp; simpl; [| apply returns_ret; discriminate].
  apply returns_bind_Get; [auto using truthy_not_nullish |]. intros type _.
  apply returns_ret. eauto.
Qed.

Lemma check_component_returns st components component :
  Forall (fun c => nullish c = false) components ->
  never_throws (propertyValue (this st)) ->
  nullish component = false ->
  returns_at st round (check_component components component).
Proof.
  intros Hcs Hf Hc. unfold check_component.
  apply returns_bind_Get; [exact Hc |]. intros properties _.
  destruct (truthy properties) eqn:Hp; [| round].
  apply truthy_not_nullish in Hp.
  apply returns_bind_read.
  apply returns_bind_Get; [exact Hp |]. intros direct _.
  apply (returns_bind _ round).
  { destruct (negb (is_undefined direct)); [| round].
    apply returns_bind_read.
    destruct (expected_undefined (propertyValue (this st))); [round |].
    apply returns_bind_read.
    apply returns_bind_Get; [exact Hp |]. intros actualValue _.
    apply returns_bind_read.
    eapply (returns_bind _ anything); [apply valueMatches_returns; exact Hf |].
    intros r _. round. }
  intros returned Hreturned. destruct returned as [r |].
  { apply returns_ret. destruct Hreturned as [| ->]; [discriminate | unfold round; auto]. }
  apply returns_bind_read.
  eapply (returns_bind _ anything).
  { returns. apply returns_Get. exact Hp. }
  intros button _. destruct button; [| round].
  apply returns_bind_Get; [exact Hp |]. intros child _.
  eapply returns_bind; [apply getComponentById_returns; exact Hcs |].
  intros childComponent _.
  eapply returns_bind; [apply child_is_text_returns |].
  intros text Htext. destruct text; [| round].
  destruct (Htext eq_refl) as (props & Hprops & Hp').
  apply returns_bind_Get; [destruct childComponent; try discriminate; reflexivity |].
  intros props' Hprops'. rewrite Hprops in Hprops'. injection Hprops' as <-.
  apply returns_bind_Get; [auto using truthy_not_nullish |]. intros textValue _.
  apply returns_bind_read.
  eapply (returns_bind _ anything); [apply valueMatches_returns; exact Hf |].
  intros r _. round.
Qed.

Lemma for_of_returns st body items :
  Forall (fun c => returns_at st round (body c)) items ->
  returns_at st round (for_of body items).
Proof.
  induction 1 as [| c rest Hc _ IH]; simpl; [round |].
  eapply returns_bind; [exact Hc |].
  intros [r |] [H | H]; try discriminate; [| exact IH].
  injection H as ->. round.
Qed.

Lemma filter_nullish (f : value -> bool) items :
  Forall (fun c => nullish c = false) items ->
  Forall (fun c => nullish c = false) (List.filter f items).
Proof.
  intros H. apply Forall_forall. intros c Hc. apply filter_In in Hc.
  rewrite Forall_forall in H. apply H, Hc.
Qed.

Lemma validate_returns st :
  nullish (message st) = false ->
  (forall updateComponents components,
      Get (message st) "updateComponents" = Normal updateComponents ->
      Get updateComponents "components" = Normal (VArr components) ->
      Forall (fun c => nullish c = false) components) ->
  never_throws (propertyValue (this st)) ->
  returns_at st (outcome (this st)) validate.
Proof.
  intros Hm Hcs Hf. unfold validate.
  apply returns_bind_read.
  apply returns_bind_Get; [exact Hm |]. intros updateComponents Hu.
  destruct (truthy updateComponents) eqn:Ht; simpl.
  2:{ apply returns_ret. right. eexists. split; [reflexivity |]. simpl. auto. }
  apply returns_bind_Get; [exact Hm |]. intros u' Hu'.
  rewrite Hu in Hu'. injection Hu' as <-.
  apply returns_bind_Get; [auto using truthy_not_nullish |]. intros components Hc.
  destruct components as [| | | | | components |];
    try (apply returns_ret; right; eexists; split; [reflexivity |]; simpl; auto; fail).
  specialize (Hcs _ _ Hu Hc).
  eapply (returns_bind _ (Forall (fun c => nullish c = false))).
  { eexists. split; [apply filter_at; exact Hcs |]. apply filter_nullish, Hcs. }
  intros matchingComponents Hmc.
  destruct (Nat.eqb (List.length matchingComponents) 0).
  { apply returns_bind_read. apply returns_ret. right. eexists.
    split; [reflexivity |]. simpl. auto. }
  apply returns_bind_read.
  destruct (negb (configured (propertyName (this st)))).
  { apply returns_ret. left. reflexivity. }
  eapply returns_bind.
  { apply for_of_returns. eapply Forall_impl; [| exact Hmc].
    intros c Hc'. apply check_component_returns; assumption. }
  intros [r |] [H | H]; try discriminate.
  - injection H as ->. apply returns_ret. left. reflexivity.
  - do 3 apply returns_bind_read.
    destruct (negb (expected_undefined (propertyValue (this st))));
      apply returns_ret; right; eexists; (split; [reflexivity |]); simpl; auto 6.
Qed.

Lemma for_of_succeeds st body items b :
  Forall (fun c => returns_at st round (body c)) items ->
  In b items ->
  body b st = (Normal (Some succeeded), st) ->
  for_of body items st = (Normal (Some succeeded), st).
Proof.
  intros Hall Hin Hb. induction Hall as [| c rest Hc _ IH]; [destruct Hin |].
  destruct Hc as (r & Hr & Hround). simpl. rewrite (run_bind _ _ _ _ Hr).
  destruct Hround as [-> | ->]; [| reflexivity].
  destruct Hin as [-> | Hin]; [congruence | auto].
Qed.

(** *** Lower case *)





(** ** The properties of [validate] and [valueMatches] *)

(** C1, as the code has it.  With no property name configured, on a
    message whose components are neither [null] nor [undefined] and one of
    which has the configured type, [validate] succeeds. *)
Theorem validate_component_present matcher schema updateComponents components c props :
  propertyName matcher = None ->
  Get schema "updateComponents" = Normal updateComponents ->
  Get updateComponents "components" = Normal (VArr components) ->
  Forall (fun x => nullish x = false) components ->
  In c components ->
  Get c "props" = Normal props ->
  Get props "component" = Normal (VStr (componentType matcher)) ->
  result_of (call_validate matcher schema) = Normal {| success := true; error := None |}.
Proof.
  intros Hname Hu Hcs Hall Hin Hprops Htype.
  destruct (Get_named updateComponents "components" _ eq_refl Hcs eq_refl)
    as (ufields & -> & Hown).
  destruct (Get_named props "component" _ eq_refl Htype eq_refl)
    as (pfields & -> & Hcomponent).
  unfold call_validate, validate.
  rewrite run_read. simpl message.
  rewrite (run_Get _ _ _ _ _ Hu). cbn [truthy negb].
  rewrite (run_Get _ _ _ _ _ Hu), (run_Get _ _ _ _ _ Hcs).
  rewrite (run_bind _ _ _ _ (filter_at _ _ Hall)). cbn [this componentType].
  assert (Hsel : In c (List.filter (matches_type (componentType matcher)) components)).
  { apply filter_In. split; [assumption |].
    unfold matches_type. rewrite Hprops. simpl. rewrite Hcomponent. simpl.
    apply String.eqb_refl. }
  destruct (List.filter (matches_type (componentType matcher)) components);
    [destruct Hsel |].
  cbn [List.length Nat.eqb]. rewrite run_read. cbn [this propertyName].
  rewrite Hname. reflexivity.
Qed.

Lemma validate_component_present_witness :
  result_of (call_validate (constructor "Text" None None None)
               (VObj [("updateComponents",
                       VObj [("components",
                              VArr [VObj [("id", VStr "t");
                                          ("props", VObj [("component", VStr "Text")])]])])]))
  = Normal {| success := true; error := None |}.
Proof.
  apply (validate_component_present (constructor "Text" None None None)
           (VObj [("updateComponents",
                   VObj [("components",
                          VArr [VObj [("id", VStr "t");
                                      ("props", VObj [("component", VStr "Text")])]])])])
           (VObj [("components",
                   VArr [VObj [("id", VStr "t");
                               ("props", VObj [("component", VStr "Text")])]])])
           [VObj [("id", VStr "t"); ("props", VObj [("component", VStr "Text")])]]
           (VObj [("id", VStr "t"); ("props", VObj [("component", VStr "Text")])])
           (VObj [("component", VStr "Text")]));
    try reflexivity.
  - repeat constructor.
  - left. reflexivity.
Defined.

(** C1, as stated, fails: the array holds a component of the configured
    type, after a [null], on which the filter throws. *)
Lemma validate_component_present_counterexample :
  let matcher := constructor "Text" None None None in
  let c := VObj [("id", VStr "t"); ("props", VObj [("component", VStr "Text")])] in
  let schema := VObj [("updateComponents", VObj [("components", VArr [VNull; c])])] in
  propertyName matcher = None /\
  In c [VNull; c] /\
  Get c "props" = Normal (VObj [("component", VStr "Text")]) /\
  Get (VObj [("component", VStr "Text")]) "component" = Normal (VStr (componentType matcher)) /\
  result_of (call_validate matcher schema)
    = Throw (TypeError "Cannot read properties of null (reading 'props')").
Proof. repeat split. right. left. reflexivity. Qed.

(** C2, as the code has it.  The matcher looks for a Button with a label.
    A matching Button has no direct label, its [child] is truthy and is the
    identifier of a component (the first with it) of type Text, and
    [valueMatches] holds of the text of that component and the expected
    value.  Then [validate] succeeds, where no component is [null] or
    [undefined] and the predicate, if the expected value is one, never
    throws. *)
Theorem validate_button_label matcher schema updateComponents components
    button props child childComponent childProps textValue r :
  let st := {| this := matcher; message := schema |} in
  componentType matcher = "Button" ->
  propertyName matcher = Some "label" ->
  never_throws (propertyValue matcher) ->
  Get schema "updateComponents" = Normal updateComponents ->
  Get updateComponents "components" = Normal (VArr components) ->
  Forall (fun c => nullish c = false) components ->
  In button components ->
  Get button "props" = Normal props ->
  Get props "component" = Normal (VStr "Button") ->
  Get props "label" = Normal VUndefined ->
  Get props "child" = Normal child ->
  truthy child = true ->
  result_of (getComponentById components child st) = Normal childComponent ->
  Get childComponent "props" = Normal childProps ->
  Get childProps "component" = Normal (VStr "Text") ->
  Get childProps "text" = Normal textValue ->
  result_of (valueMatches textValue (propertyValue matcher) st) = Normal r ->
  truthy r = true ->
  result_of (call_validate matcher schema) = Normal {| success := true; error := None |}.
Proof.
  intros st Hct Hname Hf Hu Hcs Hall Hin Hprops Htype Hlabel Hchild Htruthy
    Hfind Hcprops Hctype Htext Hmatch Hr.
  subst st.
  destruct (Get_named updateComponents "components" _ eq_refl Hcs eq_refl)
    as (ufields & -> & _).
  destruct (Get_named props "component" _ eq_refl Htype eq_refl)
    as (pfields & -> & Hcomponent).
  destruct (Get_named childProps "component" _ eq_refl Hctype eq_refl)
    as (cpfields & -> & Hccomponent).
  destruct (Get_named childComponent "props" _ eq_refl Hcprops eq_refl)
    as (cfields & -> & _).
  assert (Hround : check_component components button {| this := matcher; message := schema |}
                   = (Normal (Some succeeded), {| this := matcher; message := schema |})).
  { unfold check_component.
    rewrite (run_Get _ _ _ _ _ Hprops). cbn [truthy].
    rewrite run_read. cbn [this]. rewrite Hname. cbn [property_key].
    rewrite (run_Get _ _ _ _ _ Hlabel). cbn [is_undefined strict_equal negb].
    rewrite run_ret.
    rewrite run_read. cbn [this]. rewrite Hct.
    erewrite (run_bind (and_then _ _) _ _ true).
    2:{ cbn [String.eqb Ascii.eqb Bool.eqb and_then]. rewrite run_read. cbn [this].
        rewrite Hname. cbn [strict_equal String.eqb Ascii.eqb Bool.eqb and_then].
        rewrite (run_Get _ _ _ _ _ Hchild). rewrite Htruthy. reflexivity. }
    rewrite (run_Get _ _ _ _ _ Hchild).
    erewrite (run_bind (getComponentById _ _)).
    2:{ rewrite (run_preserves _ _ (getComponentById_preserves _ _)).
        rewrite Hfind. reflexivity. }
    erewrite (run_bind (and_then _ _) _ _ true).
    2:{ cbn [truthy and_then]. rewrite (run_Get _ _ _ _ _ Hcprops).
        cbn [truthy and_then]. rewrite (run_Get _ _ _ _ _ Hctype). reflexivity. }
    rewrite (run_Get _ _ _ _ _ Hcprops), (run_Get _ _ _ _ _ Htext).
    rewrite run_read.
    erewrite (run_bind (valueMatches _ _)).
    2:{ rewrite (run_preserves _ _ (valueMatches_preserves _ _
                                      (never_throws_writes_nothing _ Hf))).
        cbn [this]. rewrite Hmatch. reflexivity. }
    rewrite Hr. reflexivity. }
  unfold call_validate, validate.
  rewrite run_read. cbn [message].
  rewrite (run_Get _ _ _ _ _ Hu). cbn [truthy negb].
  rewrite (run_Get _ _ _ _ _ Hu), (run_Get _ _ _ _ _ Hcs).
  rewrite (run_bind _ _ _ _ (filter_at _ _ Hall)). cbn [this componentType].
  assert (Hsel : In button (List.filter (matches_type (componentType matcher)) components)).
  { apply filter_In. split; [assumption |].
    unfold matches_type. rewrite Hprops. simpl. rewrite Hcomponent, Hct. reflexivity. }
  assert (Hkept : Forall (fun c => nullish c = false)
                    (List.filter (matches_type (componentType matcher)) components))
    by (apply filter_nullish, Hall).
  destruct (List.filter (matches_type (componentType matcher)) components)
    as [| c0 kept] eqn:Hfilter; [destruct Hsel |].
  cbn [List.length Nat.eqb]. rewrite run_read. cbn [this].
  rewrite Hname. cbn [configured String.eqb negb].
  erewrite (run_bind (for_of _ _)).
  2:{ apply (for_of_succeeds _ _ _ button); [| exact Hsel | exact Hround].
      eapply Forall_impl; [| exact Hkept].
      intros c Hc. apply check_component_returns; assumption. }
  reflexivity.
Qed.

Lemma validate_button_label_witness :
  result_of (call_validate
               (constructor "Button" (Some "label") (Some (Literal (VStr "OK"))) None)
               (VObj [("updateComponents",
                       VObj [("components",
                              VArr [VObj [("id", VStr "b");
                                          ("props", VObj [("component", VStr "Button");
                                                          ("child", VStr "t")])];
                                    VObj [("id", VStr "t");
                                          ("props", VObj [("component", VStr "Text");
                                                          ("text", VStr "OK")])]])])]))
  = Normal {| success := true; error := None |}.
Proof.
  apply (validate_button_label
           (constructor "Button" (Some "label") (Some (Literal (VStr "OK"))) None)
           (VObj [("updateComponents",
                   VObj [("components",
                          VArr [VObj [("id", VStr "b");
                                      ("props", VObj [("component", VStr "Button");
                                                      ("child", VStr "t")])];
                                VObj [("id", VStr "t");
                                      ("props", VObj [("component", VStr "Text");
                                                      ("text", VStr "OK")])]])])])
           (VObj [("components",
                   VArr [VObj [("id", VStr "b");
                               ("props", VObj [("component", VStr "Button");
                                               ("child", VStr "t")])];
                         VObj [("id", VStr "t");
                               ("props", VObj [("component", VStr "Text");
                                               ("text", VStr "OK")])]])])
           [VObj [("id", VStr "b");
                  ("props", VObj [("component", VStr "Button"); ("child", VStr "t")])];
            VObj [("id", VStr "t");
                  ("props", VObj [("component", VStr "Text"); ("text", VStr "OK")])]]
           (VObj [("id", VStr "b");
                  ("props", VObj [("component", VStr "Button"); ("child", VStr "t")])])
           (VObj [("component", VStr "Button"); ("child", VStr "t")])
           (VStr "t")
           (VObj [("id", VStr "t");
                  ("props", VObj [("component", VStr "Text"); ("text", VStr "OK")])])
           (VObj [("component", VStr "Text"); ("text", VStr "OK")])
           (VStr "OK") (VBool true));
    try reflexivity.
  - repeat constructor.
  - left. reflexivity.
Defined.

(** C2, as stated, fails.  In each of three messages a Button without a
    label has a child that is the identifier of a Text whose text matches
    the expected value; [validate] fails where the identifier is the empty
    string, which is falsy, and throws where a component is [null] and
    where the predicate throws on the label of an earlier Button. *)
Lemma validate_button_label_counterexample :
  let message components :=
    VObj [("updateComponents", VObj [("components", VArr components)])] in
  let button child :=
    VObj [("id", VStr "b");
          ("props", VObj [("component", VStr "Button"); ("child", VStr child)])] in
  let text id :=
    VObj [("id", VStr id);
          ("props", VObj [("component", VStr "Text"); ("text", VStr "OK")])] in
  let other :=
    VObj [("id", VStr "a");
          ("props", VObj [("component", VStr "Button"); ("label", VStr "Cancel")])] in
  let literal := constructor "Button" (Some "label") (Some (Literal (VStr "OK"))) None in
  let f := fun v => if strict_equal v (VStr "OK") then Normal (VBool true)
                    else Throw (Thrown v) in
  let predicate := constructor "Button" (Some "label") (Some (Predicate f)) None in
  (result_of (getComponentById [button ""; text ""] (VStr "")
                {| this := literal; message := message [button ""; text ""] |})
     = Normal (text "") /\
   result_of (valueMatches (VStr "OK") (Literal (VStr "OK"))
                {| this := literal; message := message [button ""; text ""] |})
     = Normal (VBool true) /\
   result_of (call_validate literal (message [button ""; text ""]))
     = Normal {| success := false;
                 error := Some ("Failed to find component of type 'Button' with property 'label' containing value "
                               ++ double_quote ++ "OK" ++ double_quote ++ ".") |}) /\
  (result_of (getComponentById [button "t"; text "t"] (VStr "t")
                {| this := literal; message := message [VNull; button "t"; text "t"] |})
     = Normal (text "t") /\
   result_of (call_validate literal (message [VNull; button "t"; text "t"]))
     = Throw (TypeError "Cannot read properties of null (reading 'props')")) /\
  (f (VStr "OK") = Normal (VBool true) /\
   result_of (call_validate predicate (message [other; button "t"; text "t"]))
     = Throw (Thrown (VStr "Cancel"))).
Proof. repeat split. Qed.

(** C3, as the code has it.  With a predicate as the expected value,
    [valueMatches] answers [false] on [null] and [undefined] without a call
    of the predicate, and on every other actual value it is the call of the
    predicate: what the predicate returns or throws is what [valueMatches]
    returns or throws; so it is of a function that also writes. *)
Theorem valueMatches_predicate st (actualValue : value) (f : value -> Completion value) :
  valueMatches actualValue (Predicate f) st
    = (if nullish actualValue then Normal (VBool false) else f actualValue, st)
  /\
  forall g,
    valueMatches actualValue (Effectful g) st
    = if nullish actualValue then (Normal (VBool false), st) else call g actualValue st.
Proof. split; [| intros g]; destruct actualValue; reflexivity. Qed.

(** C3, as stated, fails on the actual value [null]: the predicate returns
    [true] on it, and the match does not hold; [validate] fails on a
    component whose property is [null]. *)
Lemma valueMatches_predicate_counterexample :
  let f := fun _ : value => Normal (VBool true) in
  let matcher := constructor "Text" (Some "text") (Some (Predicate f)) None in
  let schema :=
    VObj [("updateComponents",
           VObj [("components",
                  VArr [VObj [("id", VStr "t");
                              ("props", VObj [("component", VStr "Text");
                                              ("text", VNull)])]])])] in
  f VNull = Normal (VBool true) /\
  result_of (valueMatches VNull (Predicate f) {| this := matcher; message := schema |})
    = Normal (VBool false) /\
  result_of (call_validate matcher schema)
    = Normal {| success := false;
                error := Some "Failed to find component of type 'Text' with property 'text' containing value undefined." |}.
Proof. repeat split. Qed.

(** C4, as the code has it.  On a message that is neither [null] nor
    [undefined], whose components, where it has an array of them, are
    neither [null] nor [undefined], and with a predicate, if the expected
    value is one, that never throws, [validate] returns: a success, or a
    failure that carries one of its five errors. *)
Theorem validate_returns_a_result matcher schema :
  nullish schema = false ->
  (forall updateComponents components,
      Get schema "updateComponents" = Normal updateComponents ->
      Get updateComponents "components" = Normal (VArr components) ->
      Forall (fun c => nullish c = false) components) ->
  never_throws (propertyValue matcher) ->
  exists r,
    result_of (call_validate matcher schema) = Normal r /\
    (r = {| success := true; error := None |} \/
     exists text,
       r = {| success := false; error := Some text |} /\ In text (errors matcher)).
Proof.
  intros Hm Hcs Hf.
  destruct (validate_returns {| this := matcher; message := schema |} Hm Hcs Hf)
    as (r & Hr & Hout).
  exists r. unfold call_validate. rewrite Hr. split; [reflexivity | exact Hout].
Qed.

Lemma validate_returns_a_result_witness :
  exists r,
    result_of (call_validate
                 (constructor "Text" (Some "text") (Some (Literal (VStr "hello"))) None)
                 (VObj [("updateComponents", VObj [("components", VArr [VStr "stray"])])]))
      = Normal r /\
    (r = {| success := true; error := None |} \/
     exists text,
       r = {| success := false; error := Some text |} /\
       In text (errors (constructor "Text" (Some "text") (Some (Literal (VStr "hello"))) None))).
Proof.
  apply (validate_returns_a_result
           (constructor "Text" (Some "text") (Some (Literal (VStr "hello"))) None)
           (VObj [("updateComponents", VObj [("components", VArr [VStr "stray"])])])).
  - reflexivity.
  - intros updateComponents components [= <-] [= <-].
    repeat constructor.
  - exact I.
Defined.

(** C4, as stated, fails: [validate] throws on the message [null], on a
    message one of whose components is [null], and where the predicate
    throws. *)
Lemma validate_returns_a_result_counterexample :
  let text := VObj [("id", VStr "t");
                    ("props", VObj [("component", VStr "Text"); ("text", VStr "hi")])] in
  let message components :=
    VObj [("updateComponents", VObj [("components", VArr components)])] in
  result_of (call_validate (constructor "Text" None None None) VNull)
    = Throw (TypeError "Cannot read properties of null (reading 'updateComponents')") /\
  result_of (call_validate (constructor "Text" None None None) (message [VNull]))
    = Throw (TypeError "Cannot read properties of null (reading 'props')") /\
  result_of (call_validate
               (constructor "Text" (Some "text")
                  (Some (Predicate (fun v => Throw (Thrown v)))) None)
               (message [text]))
    = Throw (Thrown (VStr "hi")).
Proof. repeat split. Qed.

(** C5.  A message without an [updateComponents] field (the read of the
    field gives [undefined]) fails, whatever the matcher, with an error that
    mentions updateComponents. *)
Theorem validate_without_updateComponents matcher schema :
  Get schema "updateComponents" = Normal VUndefined ->
  exists text,
    result_of (call_validate matcher schema)
      = Normal {| success := false; error := Some text |} /\
    includes text "updateComponents" = true.
Proof.
  intros H. eexists. unfold call_validate, validate, bind, read, lift, result_of; simpl.
  rewrite H. simpl. split; reflexivity.
Qed.

Lemma validate_without_updateComponents_witness :
  exists text,
    result_of (call_validate (constructor "Text" None None None)
                 (VObj [("version", VStr "v0.9")]))
      = Normal {| success := false; error := Some text |} /\
    includes text "updateComponents" = true.
Proof.
  apply (validate_without_updateComponents (constructor "Text" None None None)
           (VObj [("version", VStr "v0.9")])).
  reflexivity.
Defined.

(** C6, as the code has it.  Where the [updateComponents] field is truthy
    (any object is) and its [components] is not an array, [validate] fails
    with an error that mentions components. *)
Theorem validate_components_not_array matcher schema updateComponents components :
  Get schema "updateComponents" = Normal updateComponents ->
  truthy updateComponents = true ->
  Get updateComponents "components" = Normal components ->
  isArray components = false ->
  exists text,
    result_of (call_validate matcher schema)
      = Normal {| success := false; error := Some text |} /\
    includes text "components" = true.
Proof.
  intros H1 H2 H3 H4. eexists.
  unfold call_validate, validate, bind, read, lift, result_of; simpl.
  rewrite H1. simpl. rewrite H2. simpl. rewrite H3.
  destruct components; try discriminate; simpl; split; reflexivity.
Qed.

Lemma validate_components_not_array_witness :
  exists text,
    result_of (call_validate (constructor "Text" None None None)
                 (VObj [("updateComponents", VObj [("components", VStr "none")])]))
      = Normal {| success := false; error := Some text |} /\
    includes text "components" = true.
Proof.
  apply (validate_components_not_array (constructor "Text" None None None)
           (VObj [("updateComponents", VObj [("components", VStr "none")])])
           (VObj [("components", VStr "none")]) (VStr "none"));
    reflexivity.
Defined.

(** C6, as stated, fails: the field is present and holds [false], whose
    [components] is [undefined], no array; [validate] answers that it found
    no updateComponents message, and does not mention components. *)
Lemma validate_components_not_array_counterexample :
  let schema := VObj [("updateComponents", VBool false)] in
  is_undefined (own [("updateComponents", VBool false)] "updateComponents") = false /\
  Get (VBool false) "components" = Normal VUndefined /\
  isArray VUndefined = false /\
  result_of (call_validate (constructor "Text" None None None) schema)
    = Normal {| success := false;
                error := Some "Expected a 'updateComponents' message but found none." |} /\
  includes "Expected a 'updateComponents' message but found none." "components" = false.
Proof. repeat split. Qed.



(** What the comparison of C7 distinguishes: a letter matches itself in
    the other case and no other letter, and a digit or a sign only
    itself. *)
Example equal_ignoring_case_samples :
  equal_ignoring_case "Sign In" "sIGN iN" = true /\
  equal_ignoring_case "yes" "no" = false /\
  equal_ignoring_case "yes" "yet" = false /\
  equal_ignoring_case "yes" "yes " = false /\
  equal_ignoring_case "A1" "a1" = true /\
  equal_ignoring_case "@" "`" = false /\
  equal_ignoring_case "[" "{" = false.
Proof. repeat split. Qed.

(** C8, as the code has it.  Against a literal, an object whose [path] is
    truthy never matches. *)
Theorem valueMatches_path_binding st (fields : list (string * value)) (e : value) :
  truthy (own fields "path") = true ->
  valueMatches (VObj fields) (Literal e) st = (Normal (VBool false), st).
Proof.
  intros H. destruct e; simpl; unfold bind, lift, ret; simpl; rewrite H; reflexivity.
Qed.

Lemma valueMatches_path_binding_witness :
  valueMatches (VObj [("path", VStr "/user/name")])
    (Literal (VObj [("path", VStr "/user/name")]))
    {| this := constructor "Text" (Some "text") None None; message := VNull |}
  = (Normal (VBool false),
     {| this := constructor "Text" (Some "text") None None; message := VNull |}).
Proof.
  apply (valueMatches_path_binding
           {| this := constructor "Text" (Some "text") None None; message := VNull |}
           [("path", VStr "/user/name")] (VObj [("path", VStr "/user/name")])).
  reflexivity.
Defined.

(** C8, as stated, fails on an object that carries a [path] that is the
    empty string: it matches the literal that is the same object. *)
Lemma valueMatches_path_binding_counterexample :
  let actualValue := VObj [("path", VStr "")] in
  typeof actualValue = "object" /\ isArray actualValue = false /\
  is_undefined (own [("path", VStr "")] "path") = false /\
  result_of (valueMatches actualValue (Literal (VObj [("path", VStr "")]))
               {| this := constructor "Text" (Some "text") None None; message := VNull |})
    = Normal (VBool true).
Proof. repeat split. Qed.

(** C9, as the code has it.  [validate] writes nothing itself: where the
    expected value is a literal, or a function whose call leaves what it
    reaches, a call of [validate] leaves the store as it found it, the
    message and the four fields of the matcher. *)
Theorem validate_leaves_store matcher schema :
  writes_nothing (propertyValue matcher) ->
  let st' := store_of (call_validate matcher schema) in
  message st' = schema /\
  componentType (this st') = componentType matcher /\
  propertyName (this st') = propertyName matcher /\
  propertyValue (this st') = propertyValue matcher /\
  caseInsensitive (this st') = caseInsensitive matcher.
Proof.
  intros Hw. unfold call_validate. cbv zeta.
  rewrite (validate_preserves {| this := matcher; message := schema |} Hw).
  simpl. tauto.
Qed.

Lemma validate_leaves_store_witness :
  let matcher :=
    constructor "Text" (Some "text")
      (Some (Predicate (fun v => Normal (VBool (strict_equal v (VStr "hi")))))) None in
  let schema :=
    VObj [("updateComponents",
           VObj [("components",
                  VArr [VObj [("id", VStr "t");
                              ("props", VObj [("component", VStr "Text");
                                              ("text", VStr "hi")])]])])] in
  let st' := store_of (call_validate matcher schema) in
  message st' = schema /\
  componentType (this st') = componentType matcher /\
  propertyName (this st') = propertyName matcher /\
  propertyValue (this st') = propertyValue matcher /\
  caseInsensitive (this st') = caseInsensitive matcher.
Proof.
  apply (validate_leaves_store
           (constructor "Text" (Some "text")
              (Some (Predicate (fun v => Normal (VBool (strict_equal v (VStr "hi")))))) None)
           (VObj [("updateComponents",
                   VObj [("components",
                          VArr [VObj [("id", VStr "t");
                                      ("props", VObj [("component", VStr "Text");
                                                      ("text", VStr "hi")])]])])])).
  exact I.
Defined.

(** C9, as stated, fails on a matcher whose expected value is a function
    that writes.  The first sorts the options it is given, as
    [opts => opts.sort()] does, and returns them: [validate] succeeds and
    the message holds the sorted options.  The second sets the flag of the
    matcher and returns [true]. *)
Lemma validate_leaves_store_counterexample :
  let schema_with options :=
    VObj [("updateComponents",
           VObj [("components",
                  VArr [VObj [("id", VStr "c");
                              ("props", VObj [("component", VStr "MultipleChoice");
                                              ("options", options)])]])])] in
  let given := VArr [VStr "b"; VStr "a"] in
  let sorted := VArr [VStr "a"; VStr "b"] in
  let sort := fun (v : value) (h : Heap) =>
    (Normal sorted,
     {| heap_componentType := heap_componentType h;
        heap_propertyName := heap_propertyName h;
        heap_caseInsensitive := heap_caseInsensitive h;
        heap_message := schema_with sorted |}) in
  let set_flag := fun (v : value) (h : Heap) =>
    (Normal (VBool true),
     {| heap_componentType := heap_componentType h;
        heap_propertyName := heap_propertyName h;
        heap_caseInsensitive := true;
        heap_message := heap_message h |}) in
  let sorting := constructor "MultipleChoice" (Some "options") (Some (Effectful sort)) None in
  let flagging :=
    constructor "MultipleChoice" (Some "options") (Some (Effectful set_flag)) (Some false) in
  (result_of (call_validate sorting (schema_with given))
     = Normal {| success := true; error := None |} /\
   message (store_of (call_validate sorting (schema_with given))) = schema_with sorted /\
   schema_with sorted <> schema_with given) /\
  (result_of (call_validate flagging (schema_with given))
     = Normal {| success := true; error := None |} /\
   caseInsensitive flagging = false /\
   caseInsensitive (this (store_of (call_validate flagging (schema_with given)))) = true).
Proof. repeat split. discriminate. Qed.

(** The monad does have computations that change the store. *)
Remark assign_changes_store :
  exists (c : M unit) (st : Store), store_of (c st) <> st.
Proof.
  exists (assign (fun st => with_flag st true)),
         {| this := constructor "Text" None None None; message := VNull |}.
  discriminate.
Qed.

(** C10.  The selection compares [props.component] with the configured
    type by [===], whatever the flag: with [caseInsensitive = true], a
    component whose type differs from the configured one, be it in letter
    case only, is not selected, and the flag does not change what the
    filter selects. *)
Theorem selection_is_case_sensitive matcher schema c props type :
  caseInsensitive matcher = true ->
  Get c "props" = Normal props ->
  Get props "component" = Normal (VStr type) ->
  toLowerCase type = toLowerCase (componentType matcher) ->
  type <> componentType matcher ->
  let st := {| this := matcher; message := schema |} in
  is_matching c st = (Normal false, st) /\
  (forall components kept,
      result_of (filter is_matching components st) = Normal kept -> ~ In c kept) /\
  (forall components b,
      result_of (filter is_matching components (with_flag st b))
      = result_of (filter is_matching components st)).
Proof.
  intros _ Hprops Htype _ Hneq st.
  assert (Hc : is_matching c st = (Normal false, st)).
  { unfold is_matching, bind, lift. rewrite Hprops. simpl.
    destruct (truthy props); [| reflexivity]. simpl. rewrite Htype. simpl.
    unfold read, ret. simpl. apply String.eqb_neq in Hneq. rewrite Hneq. reflexivity. }
  split; [exact Hc |]. split.
  - intros components kept Hk Hin.
    rewrite (filter_selected st components kept c Hk Hin) in Hc. discriminate.
  - intros components b. symmetry. apply filter_flag.
Qed.

Lemma selection_is_case_sensitive_witness :
  let matcher := constructor "Button" (Some "label") (Some (Literal (VStr "ok"))) (Some true) in
  let c := VObj [("id", VStr "b"); ("props", VObj [("component", VStr "button")])] in
  let st := {| this := matcher; message := VArr [c] |} in
  is_matching c st = (Normal false, st) /\
  (forall components kept,
      result_of (filter is_matching components st) = Normal kept -> ~ In c kept) /\
  (forall components b,
      result_of (filter is_matching components (with_flag st b))
      = result_of (filter is_matching components st)).
Proof.
  apply (selection_is_case_sensitive
           (constructor "Button" (Some "label") (Some (Literal (VStr "ok"))) (Some true))
           (VArr [VObj [("id", VStr "b"); ("props", VObj [("component", VStr "button")])]])
           (VObj [("id", VStr "b"); ("props", VObj [("component", VStr "button")])])
           (VObj [("component", VStr "button")]) "button");
    try reflexivity.
  discriminate.
Defined.

(** ** Further properties *)

(** *** [valueMatches] against a literal *)

Lemma field_with_truthy (f : value -> bool) key fields :
  match field_with f key fields with
  | Some (v, matches) => truthy v && matches
  | None => false
  end = truthy (own fields key) && f (own fields key).
Proof.
  induction fields as [| [k x] rest IH]; simpl; [reflexivity |].
  destruct (String.eqb k key); [reflexivity | exact IH].
Qed.

(** The loop of [literal_match] over the items of an array. *)
Lemma literal_match_array ci e items :
  literal_match ci e (VArr items) =
  existsb (item_match ci e) items
  || same_text (JSON_stringify (VArr items)) (JSON_stringify e).
Proof.
  cbn [literal_match]. f_equal.
  induction items as [| item rest IH]; [reflexivity |].
  cbn [existsb]. rewrite <- IH. unfold item_match.
  destruct item; try reflexivity;
    try (rewrite !orb_false_r; reflexivity).
  rewrite !field_with_truthy. rewrite <- !orb_assoc. reflexivity.
Qed.

Lemma field_with_missing {B : Type} (f : value -> B) key fields :
  field_with f key fields = None -> own fields key = VUndefined.
Proof.
  induction fields as [| [k x] rest IH]; simpl; [reflexivity |].
  destruct (String.eqb k key); [discriminate | exact IH].
Qed.

Lemma property_of_literal st e key item :
  (forall fields, item = VObj fields ->
     Forall (fun kv => valueMatches (snd kv) (Literal e) st
                       = (Normal (VBool (literal_match (caseInsensitive (this st)) e (snd kv))), st))
            fields) ->
  property_of (Literal e) key item st =
  (Normal match item with
          | VObj fields =>
              truthy (own fields key)
              && literal_match (caseInsensitive (this st)) e (own fields key)
          | _ => false
          end, st).
Proof.
  intros H. destruct item; try reflexivity. unfold property_of.
  specialize (H _ eq_refl). rewrite Forall_forall in H.
  destruct (field_with _ key fields) as [[v m] |] eqn:E.
  - apply field_with_own in E. destruct E as (-> & <- & Hin).
    destruct (truthy (own fields key)); [| reflexivity]. cbn [and_then andb].
    rewrite (run_bind _ _ _ _ (H _ Hin)). reflexivity.
  - rewrite (field_with_missing _ _ _ E). reflexivity.
Qed.

Lemma each_item_literal st e items :
  Forall (fun item => valueMatches item (Literal e) st
                      = (Normal (VBool (literal_match (caseInsensitive (this st)) e item)), st))
         items ->
  Forall (fun item => forall fields, item = VObj fields ->
            Forall (fun kv => valueMatches (snd kv) (Literal e) st
                              = (Normal (VBool (literal_match (caseInsensitive (this st)) e (snd kv))), st))
                   fields) items ->
  each_item (Literal e) items st
  = (Normal (existsb (item_match (caseInsensitive (this st)) e) items), st).
Proof.
  induction 1 as [| item rest Hitem _ IH]; intros Hfields; [reflexivity |].
  inversion Hfields as [| ? ? Hf Hrest]; subst.
  cbn [each_item existsb]. rewrite (run_bind _ _ _ _ Hitem). cbn [truthy].
  unfold item_match at 1.
  destruct (literal_match (caseInsensitive (this st)) e item) eqn:Hm; [reflexivity |].
  cbn [orb].
  destruct item as [| | b | n | s | its | fields];
    cbn [typeof String.eqb Ascii.eqb Bool.eqb is_null strict_equal negb andb and_then];
    try (rewrite !run_ret; cbv iota; apply IH; assumption).
  all: rewrite (run_bind _ _ _ _ (property_of_literal st e "label" _ Hf));
    cbv beta iota.
  all: try (match goal with |- (if ?b then _ else _) _ = _ => destruct b end;
            [reflexivity |]).
  all: rewrite (run_bind _ _ _ _ (property_of_literal st e "value" _ Hf));
    cbv beta iota.
  all: try (match goal with |- (if ?b then _ else _) _ = _ => destruct b end;
            [reflexivity |]).
  all: cbn [orb]; apply IH; assumption.
Qed.

(** Against a literal, [valueMatches] returns the boolean [literal_match]
    and leaves the store. *)
Lemma valueMatches_literal st e a :
  valueMatches a (Literal e) st
  = (Normal (VBool (literal_match (caseInsensitive (this st)) e a)), st).
Proof.
  induction a using value_deep_ind; try (destruct e; reflexivity).
  - rewrite valueMatches_array, literal_match_array.
    rewrite (run_bind _ _ _ _ (each_item_literal st e items H H0)).
    destruct (existsb _ items); reflexivity.
  - cbn [literal_match].
    destruct e; simpl; unfold bind, lift, ret; simpl;
      destruct (truthy (own fields "path")); reflexivity.
Qed.

Lemma own_in fields key :
  own fields key = VUndefined \/ In (key, own fields key) fields.
Proof.
  induction fields as [| [k x] rest IH]; simpl; [auto |].
  destruct (String.eqb k key) eqn:E.
  - apply String.eqb_eq in E. subst. auto.
  - destruct IH; auto.
Qed.

(** A property of the items of an array passes to [item_match] when it
    holds of the items and of their own properties. *)
Lemma item_match_false ci e item :
  literal_match ci e item = false ->
  (forall fields, item = VObj fields ->
     Forall (fun kv => literal_match ci e (snd kv) = false) fields) ->
  item_match ci e item = false.
Proof.
  intros Hitem Hfields. unfold item_match. rewrite Hitem.
  destruct item as [| | b | n | s | its | fields]; try reflexivity.
  specialize (Hfields _ eq_refl). rewrite Forall_forall in Hfields.
  assert (H : forall key, truthy (own fields key) && literal_match ci e (own fields key) = false).
  { intros key. destruct (own_in fields key) as [-> | Hin]; [reflexivity |].
    specialize (Hfields _ Hin). cbn [snd] in Hfields.
    rewrite Hfields. apply andb_false_r. }
  rewrite !H. reflexivity.
Qed.

Lemma literal_match_undefined ci a : literal_match ci VUndefined a = false.
Proof.
  induction a using value_deep_ind; try reflexivity.
  - rewrite literal_match_array. cbn [JSON_stringify same_text]. rewrite orb_false_r.
    induction items as [| item rest IH]; [reflexivity |].
    inversion H; subst. inversion H0; subst. cbn [existsb].
    rewrite item_match_false by assumption. auto.
  - cbn [literal_match]. destruct (truthy (own fields "path")); reflexivity.
Qed.

Lemma valueMatches_literal_undefined st a :
  valueMatches a (Literal VUndefined) st = (Normal (VBool false), st).
Proof. rewrite valueMatches_literal, literal_match_undefined. reflexivity. Qed.

(** X2.  An expected value that is [undefined] matches no actual value:
    not [undefined] itself, and no array that holds it. *)
Theorem valueMatches_undefined_expected st (actualValue : value) :
  valueMatches actualValue (Literal VUndefined) st = (Normal (VBool false), st).
Proof. apply valueMatches_literal_undefined. Qed.

(** X1.  Against a literal [valueMatches] does not throw: it returns a
    boolean and leaves the store. *)
Theorem valueMatches_literal_returns st (actualValue e : value) :
  exists b : bool, valueMatches actualValue (Literal e) st = (Normal (VBool b), st).
Proof. eexists. apply valueMatches_literal. Qed.

Lemma same_text_refl v : is_undefined v = false -> same_text (JSON_stringify v) (JSON_stringify v) = true.
Proof.
  destruct v; try discriminate; intros _; cbn [JSON_stringify same_text];
    apply String.eqb_refl.
Qed.

(** X3.  A value matches the literal equal to it, under either flag,
    unless it is [null], [undefined], the number [NaN], or an object with a
    truthy [path]. *)
Theorem valueMatches_same_value st (v : value) :
  nullish v = false ->
  match v with
  | VNum n => PrimFloat.eqb n n = true
  | VObj fields => truthy (own fields "path") = false
  | _ => True
  end ->
  valueMatches v (Literal v) st = (Normal (VBool true), st).
Proof.
  intros Hn Hv. rewrite valueMatches_literal. do 3 f_equal.
  destruct v as [| | b | n | s | items | fields]; try discriminate.
  - apply Bool.eqb_reflx.
  - exact Hv.
  - cbn [literal_match]. unfold compare_strings.
    destruct (caseInsensitive (this st)); apply String.eqb_refl.
  - rewrite literal_match_array, same_text_refl by reflexivity. apply orb_true_r.
  - cbn [literal_match]. rewrite Hv. apply same_text_refl. reflexivity.
Qed.

Lemma valueMatches_same_value_witness :
  let v := VArr [VObj [("label", VStr "A"); ("value", VNum 1%float)]; VStr "b"] in
  let st := {| this := constructor "MultipleChoice" (Some "options") (Some (Literal v)) None;
               message := VNull |} in
  valueMatches v (Literal v) st = (Normal (VBool true), st).
Proof.
  apply (valueMatches_same_value
           {| this := constructor "MultipleChoice" (Some "options")
                        (Some (Literal (VArr [VObj [("label", VStr "A"); ("value", VNum 1%float)];
                                              VStr "b"]))) None;
              message := VNull |}
           (VArr [VObj [("label", VStr "A"); ("value", VNum 1%float)]; VStr "b"]));
    [reflexivity | exact I].
Defined.

Lemma valueMatches_literal_true st e a :
  valueMatches a (Literal e) st = (Normal (VBool true), st) <->
  literal_match (caseInsensitive (this st)) e a = true.
Proof.
  rewrite valueMatches_literal. split; [intros [= ->]; reflexivity | intros ->; reflexivity].
Qed.

Lemma same_text_eq x y : same_text x y = true <-> x = y.
Proof.
  destruct x as [a |], y as [b |]; simpl; try (split; [discriminate | discriminate]).
  - rewrite String.eqb_eq. split; [intros ->; reflexivity | intros [= ->]; reflexivity].
  - split; reflexivity.
Qed.

(** X5.  Against a literal, an array matches exactly when one of its
    items matches, or the truthy [label] or [value] of an item that is an
    object matches, or else the array and the literal have the same JSON
    text. *)
Theorem valueMatches_array_search st (items : list value) (e : value) :
  valueMatches (VArr items) (Literal e) st = (Normal (VBool true), st) <->
  (exists item,
      In item items /\
      (valueMatches item (Literal e) st = (Normal (VBool true), st) \/
       exists fields key,
         item = VObj fields /\ (key = "label" \/ key = "value") /\
         truthy (own fields key) = true /\
         valueMatches (own fields key) (Literal e) st = (Normal (VBool true), st)))
  \/ JSON_stringify (VArr items) = JSON_stringify e.
Proof.
  rewrite valueMatches_literal_true, literal_match_array, orb_true_iff,
    existsb_exists, same_text_eq.
  apply or_iff_compat_r. split.
  - intros (item & Hin & Hm). exists item. split; [exact Hin |].
    unfold item_match in Hm. apply orb_true_iff in Hm. destruct Hm as [Hm | Hm].
    + left. apply valueMatches_literal_true, Hm.
    + right. destruct item as [| | b | n | s | its | fields]; try discriminate.
      apply orb_true_iff in Hm.
      destruct Hm as [Hm | Hm]; apply andb_true_iff in Hm; destruct Hm as [Ht Hm];
        [exists fields, "label" | exists fields, "value"];
        rewrite valueMatches_literal_true; auto.
  - intros (item & Hin & Hm). exists item. split; [exact Hin |].
    unfold item_match. apply orb_true_iff.
    destruct Hm as [Hm | (fields & key & -> & Hkey & Ht & Hm)].
    + left. apply valueMatches_literal_true, Hm.
    + right. apply valueMatches_literal_true in Hm.
      apply orb_true_iff. destruct Hkey as [-> | ->]; [left | right];
        rewrite Ht, Hm; reflexivity.
Qed.

Lemma compare_strings_flag e a :
  compare_strings false a e = true -> compare_strings true a e = true.
Proof.
  unfold compare_strings. intros H. apply String.eqb_eq in H. subst.
  apply String.eqb_refl.
Qed.

Lemma item_match_flag e item :
  (literal_match false e item = true -> literal_match true e item = true) ->
  (forall fields, item = VObj fields ->
     Forall (fun kv => literal_match false e (snd kv) = true ->
                       literal_match true e (snd kv) = true) fields) ->
  item_match false e item = true -> item_match true e item = true.
Proof.
  intros Hitem Hfields. unfold item_match. rewrite !orb_true_iff.
  intros [H | H]; [auto |]. right.
  destruct item as [| | b | n | s | its | fields]; try discriminate.
  specialize (Hfields _ eq_refl). rewrite Forall_forall in Hfields.
  assert (Hk : forall key,
             truthy (own fields key) && literal_match false e (own fields key) = true ->
             truthy (own fields key) && literal_match true e (own fields key) = true).
  { intros key Hm. apply andb_true_iff in Hm. destruct Hm as [Ht Hm].
    destruct (own_in fields key) as [Hu | Hin]; [rewrite Hu in Ht; discriminate |].
    specialize (Hfields _ Hin). cbn [snd] in Hfields.
    rewrite Ht, (Hfields Hm). reflexivity. }
  rewrite orb_true_iff in *. destruct H as [H | H]; auto.
Qed.

Lemma literal_match_flag e a :
  literal_match false e a = true -> literal_match true e a = true.
Proof.
  induction a using value_deep_ind; try (destruct e; simpl; auto; fail).
  - destruct e; simpl; auto. apply compare_strings_flag.
  - rewrite !literal_match_array, !orb_true_iff. intros [Hm | Hm]; [left | auto].
    rewrite existsb_exists in *. destruct Hm as (item & Hin & Hm).
    exists item. split; [exact Hin |].
    rewrite Forall_forall in H, H0. apply item_match_flag; [auto | | exact Hm].
    apply H0, Hin.
Qed.

(** X4.  Against a literal, a match found with [caseInsensitive = false]
    is found with [caseInsensitive = true]: the flag only adds matches. *)
Theorem valueMatches_flag_adds_matches st (actualValue e : value) :
  result_of (valueMatches actualValue (Literal e) (with_flag st false)) = Normal (VBool true) ->
  result_of (valueMatches actualValue (Literal e) (with_flag st true)) = Normal (VBool true).
Proof.
  rewrite !valueMatches_literal. unfold result_of. simpl.
  intros [= H]. rewrite (literal_match_flag _ _ H). reflexivity.
Qed.

Lemma valueMatches_flag_adds_matches_witness :
  let st := {| this := constructor "Text" (Some "text") None None; message := VNull |} in
  result_of (valueMatches (VArr [VStr "Yes"; VStr "No"]) (Literal (VStr "No")) (with_flag st true))
  = Normal (VBool true).
Proof.
  apply (valueMatches_flag_adds_matches
           {| this := constructor "Text" (Some "text") None None; message := VNull |}
           (VArr [VStr "Yes"; VStr "No"]) (VStr "No")).
  reflexivity.
Defined.

(** *** The JSON texts of values of different types *)

Lemma same_text_first x y : first_char x <> first_char y -> same_text x y = false.
Proof.
  intros H. destruct (same_text x y) eqn:E; [| reflexivity].
  apply same_text_eq in E. subst. contradiction.
Qed.

Lemma string_of_nonneg_first z :
  exists c rest, string_of_nonneg z = String c rest /\ is_digit c = true.
Proof.
  unfold string_of_nonneg.
  destruct (N.to_uint (Z.to_N z)); simpl; eauto.
Qed.

Lemma layout_first n k z :
  exists c rest, layout n k (string_of_nonneg z) = String c rest /\ is_digit c = true.
Proof.
  destruct (string_of_nonneg_first z) as (c & rest & -> & Hc). unfold layout.
  destruct ((k <=? n)%Z && (n <=? 21)%Z); [simpl; eauto |].
  destruct ((0 <? n)%Z && (n <=? 21)%Z) eqn:E.
  { apply andb_true_iff in E. destruct E as [E _]. apply Z.ltb_lt in E.
    destruct (Z.to_nat n) eqn:En; [lia |]. simpl. eauto. }
  destruct ((-6 <? n)%Z && (n <=? 0)%Z); [simpl; eauto |].
  destruct (k =? 1)%Z; simpl; eauto.
Qed.

Lemma NumberToString_first x :
  is_finite x = true ->
  exists c rest, NumberToString x = String c rest /\ (c = "-"%char \/ is_digit c = true).
Proof.
  unfold is_finite, NumberToString. destruct (Prim2SF x) as [s | s | | s m e]; try discriminate.
  - intros _. exists "0"%char, "". auto.
  - intros _. destruct (digits (Z.pos m) e) as [[n k] d].
    destruct s; [exists "-"%char; simpl; eauto |].
    destruct (layout_first n k d) as (c & rest & -> & Hc). simpl. eauto.
Qed.

(** X6.  A string, a boolean and a finite number match no literal of
    another type ([typeof]): the text of a number is no number, and the
    number of a text is no text. *)
Theorem valueMatches_primitive_of_other_type st (actualValue e : value) :
  match actualValue with
  | VStr _ | VBool _ => True
  | VNum n => is_finite n = true
  | _ => False
  end ->
  typeof actualValue <> typeof e ->
  valueMatches actualValue (Literal e) st = (Normal (VBool false), st).
Proof.
  intros Ha Ht. rewrite valueMatches_literal. do 3 f_equal.
  destruct actualValue as [| | b | n | s | items | fields]; try contradiction.
  - destruct e as [| | b' | n' | s' | its | fs]; try (contradiction Ht; reflexivity);
      cbn [literal_match]; try reflexivity; apply same_text_first;
      cbn [JSON_stringify first_char]; try (destruct b; discriminate).
    destruct (is_finite n') eqn:Hn; [| destruct b; discriminate].
    destruct (NumberToString_first n' Hn) as (c & rest & -> & [-> | Hc]);
      destruct b; try discriminate; intros [= <-]; discriminate.
  - destruct (NumberToString_first n Ha) as (c & rest & Hs & Hc).
    destruct e as [| | b' | n' | s' | its | fs]; try (contradiction Ht; reflexivity);
      cbn [literal_match]; try reflexivity; apply same_text_first;
      cbn [JSON_stringify first_char]; rewrite Ha, Hs; cbn [first_char];
      try (destruct b'); destruct Hc as [-> | Hc]; try discriminate;
      intros [= ->]; discriminate.
  - destruct e as [| | b' | n' | s' | its | fs]; try (contradiction Ht; reflexivity);
      cbn [literal_match]; try reflexivity; apply same_text_first;
      cbn [JSON_stringify first_char]; try (destruct b'); try discriminate.
    destruct (is_finite n') eqn:Hn; [| discriminate].
    destruct (NumberToString_first n' Hn) as (c & rest & -> & [-> | Hc]);
      try discriminate; intros [= <-]; discriminate.
Qed.

Lemma valueMatches_primitive_of_other_type_witness :
  let st := {| this := constructor "Slider" (Some "value") (Some (Literal (VStr "1"))) None;
               message := VNull |} in
  valueMatches (VNum 1%float) (Literal (VStr "1")) st = (Normal (VBool false), st).
Proof.
  apply (valueMatches_primitive_of_other_type
           {| this := constructor "Slider" (Some "value") (Some (Literal (VStr "1"))) None;
              message := VNull |}
           (VNum 1%float) (VStr "1")).
  - reflexivity.
  - discriminate.
Defined.

(** *** [getComponentById] *)

Lemma id_callback st c id i :
  Get c "id" = Normal i ->
  (j <- lift (Get c "id") ;; ret (strict_equal j id)) st = (Normal (strict_equal i id), st).
Proof. intros H. rewrite (run_Get _ _ _ _ _ H). reflexivity. Qed.

(** X7.  [getComponentById] returns the first component whose [id] is
    the identifier, by [===]; the components after it are not read. *)
Theorem getComponentById_first st (before after : list value) (c id i : value) :
  Forall (fun x => exists j, Get x "id" = Normal j /\ strict_equal j id = false) before ->
  Get c "id" = Normal i ->
  strict_equal i id = true ->
  getComponentById (before ++ c :: after) id st = (Normal c, st).
Proof.
  intros Hbefore Hc Hi. unfold getComponentById.
  induction Hbefore as [| x rest (j & Hj & Hne) _ IH]; cbn [app find].
  - rewrite (run_bind _ _ _ _ (id_callback st c id i Hc)), Hi. reflexivity.
  - rewrite (run_bind _ _ _ _ (id_callback st x id j Hj)), Hne. exact IH.
Qed.

Lemma getComponentById_first_witness :
  let st := {| this := constructor "Button" (Some "label") None None; message := VNull |} in
  let text := VObj [("id", VStr "t"); ("props", VObj [("component", VStr "Text")])] in
  getComponentById [VObj [("id", VStr "b")]; text; VNull; VObj [("id", VStr "t")]] (VStr "t") st
  = (Normal text, st).
Proof.
  apply (getComponentById_first
           {| this := constructor "Button" (Some "label") None None; message := VNull |}
           [VObj [("id", VStr "b")]]
           [VNull; VObj [("id", VStr "t")]]
           (VObj [("id", VStr "t"); ("props", VObj [("component", VStr "Text")])])
           (VStr "t") (VStr "t")).
  - repeat constructor. exists (VStr "b"). split; reflexivity.
  - reflexivity.
  - reflexivity.
Defined.

(** X8.  Where no component has the identifier, [getComponentById]
    returns [undefined]. *)
Theorem getComponentById_missing st (components : list value) (id : value) :
  Forall (fun x => exists j, Get x "id" = Normal j /\ strict_equal j id = false) components ->
  getComponentById components id st = (Normal VUndefined, st).
Proof.
  intros H. unfold getComponentById.
  induction H as [| x rest (j & Hj & Hne) _ IH]; cbn [find]; [reflexivity |].
  rewrite (run_bind _ _ _ _ (id_callback st x id j Hj)), Hne. exact IH.
Qed.

Lemma getComponentById_missing_witness :
  let st := {| this := constructor "Button" (Some "label") None None; message := VNull |} in
  getComponentById [VObj [("id", VStr "b")]; VStr "t"; VObj [("id", VNum 7%float)]] (VStr "t") st
  = (Normal VUndefined, st).
Proof.
  apply (getComponentById_missing
           {| this := constructor "Button" (Some "label") None None; message := VNull |}
           [VObj [("id", VStr "b")]; VStr "t"; VObj [("id", VNum 7%float)]] (VStr "t")).
  repeat constructor.
  - exists (VStr "b"). split; reflexivity.
  - exists VUndefined. split; reflexivity.
  - exists (VNum 7%float). split; reflexivity.
Defined.

(** *** The verdicts of [validate] *)

(** X9.  A falsy [updateComponents] ([null], [false], [0], the empty
    string) is reported like a missing one. *)
Theorem validate_falsy_updateComponents matcher schema updateComponents :
  Get schema "updateComponents" = Normal updateComponents ->
  truthy updateComponents = false ->
  result_of (call_validate matcher schema)
  = Normal {| success := false;
              error := Some "Expected a 'updateComponents' message but found none." |}.
Proof.
  intros Hu Ht. unfold call_validate, validate.
  rewrite run_read. cbn [message]. rewrite (run_Get _ _ _ _ _ Hu), Ht. reflexivity.
Qed.

Lemma validate_falsy_updateComponents_witness :
  result_of (call_validate (constructor "Text" None None None)
               (VObj [("updateComponents", VNull)]))
  = Normal {| success := false;
              error := Some "Expected a 'updateComponents' message but found none." |}.
Proof.
  apply (validate_falsy_updateComponents (constructor "Text" None None None)
           (VObj [("updateComponents", VNull)]) VNull);
    reflexivity.
Defined.

Lemma matches_type_true ct c :
  matches_type ct c = true <->
  exists props, Get c "props" = Normal props /\ Get props "component" = Normal (VStr ct).
Proof.
  unfold matches_type. split.
  - destruct (Get c "props") as [props |]; [| discriminate].
    destruct (truthy props); [| discriminate]. cbn [andb].
    destruct (Get props "component") as [type |] eqn:Et; [| discriminate].
    intros H. exists props. split; [reflexivity |].
    destruct type; try discriminate. apply String.eqb_eq in H. subst. exact Et.
  - intros (props & -> & Ht).
    destruct (Get_named props "component" _ eq_refl Ht eq_refl) as (fields & -> & _).
    rewrite Ht. cbn [truthy andb strict_equal]. apply String.eqb_refl.
Qed.

Lemma filter_all_rejected (f : value -> bool) items :
  Forall (fun c => f c = false) items -> List.filter f items = [].
Proof.
  induction 1 as [| c rest Hc _ IH]; [reflexivity |].
  simpl. rewrite Hc. exact IH.
Qed.

(** X10.  Where the array has no component of the configured type,
    [validate] fails and names the type, whatever property and value are
    configured: the array may be empty, and may hold components without
    [props] or with a [props] that is [null], which the filter passes
    over. *)
Theorem validate_no_component_of_type matcher schema updateComponents components :
  Get schema "updateComponents" = Normal updateComponents ->
  Get updateComponents "components" = Normal (VArr components) ->
  Forall (fun c => nullish c = false /\
                   forall props,
                     Get c "props" = Normal props ->
                     Get props "component" <> Normal (VStr (componentType matcher)))
         components ->
  result_of (call_validate matcher schema)
  = Normal {| success := false;
              error := Some ("Failed to find component of type '"
                             ++ componentType matcher ++ "'.") |}.
Proof.
  intros Hu Hcs Hall.
  destruct (Get_named updateComponents "components" _ eq_refl Hcs eq_refl)
    as (ufields & -> & _).
  assert (Hnn : Forall (fun c => nullish c = false) components).
  { eapply Forall_impl; [| exact Hall]. intros c [Hc _]. exact Hc. }
  unfold call_validate, validate.
  rewrite run_read. cbn [message].
  rewrite (run_Get _ _ _ _ _ Hu). cbn [truthy negb].
  rewrite (run_Get _ _ _ _ _ Hu), (run_Get _ _ _ _ _ Hcs).
  rewrite (run_bind _ _ _ _ (filter_at _ _ Hnn)). cbn [this componentType].
  rewrite filter_all_rejected; [reflexivity |].
  eapply Forall_impl; [| exact Hall]. intros c [_ Hc].
  destruct (matches_type (componentType matcher) c) eqn:E; [| reflexivity].
  apply matches_type_true in E. destruct E as (props & Hp & Ht).
  contradiction (Hc props Hp Ht).
Qed.

Lemma validate_no_component_of_type_witness :
  result_of (call_validate
               (constructor "Button" (Some "label") (Some (Literal (VStr "OK"))) None)
               (VObj [("updateComponents",
                       VObj [("components",
                              VArr [VObj [("id", VStr "x")];
                                    VObj [("id", VStr "y"); ("props", VNull)];
                                    VStr "stray";
                                    VObj [("id", VStr "t");
                                          ("props", VObj [("component", VStr "button")])]])])]))
  = Normal {| success := false;
              error := Some "Failed to find component of type 'Button'." |}.
Proof.
  apply (validate_no_component_of_type
           (constructor "Button" (Some "label") (Some (Literal (VStr "OK"))) None)
           (VObj [("updateComponents",
                   VObj [("components",
                          VArr [VObj [("id", VStr "x")];
                                VObj [("id", VStr "y"); ("props", VNull)];
                                VStr "stray";
                                VObj [("id", VStr "t");
                                      ("props", VObj [("component", VStr "button")])]])])])
           (VObj [("components",
                   VArr [VObj [("id", VStr "x")];
                         VObj [("id", VStr "y"); ("props", VNull)];
                         VStr "stray";
                         VObj [("id", VStr "t");
                               ("props", VObj [("component", VStr "button")])]])])
           [VObj [("id", VStr "x")];
            VObj [("id", VStr "y"); ("props", VNull)];
            VStr "stray";
            VObj [("id", VStr "t"); ("props", VObj [("component", VStr "button")])]]);
    try reflexivity.
  repeat constructor; intros props [= <-]; discriminate.
Defined.

Lemma run_normal {A B : Type} (a : A) (k : A -> M B) st :
  bind (lift (Normal a)) k st = k a st.
Proof. reflexivity. Qed.

Lemma run_throw {A B : Type} (e : exn) (k : A -> M B) st :
  bind (lift (Throw e)) k st = (Throw e, st).
Proof. reflexivity. Qed.

Lemma Get_nullish v key a : Get v key = Normal a -> nullish v = false.
Proof. destruct v; try discriminate; reflexivity. Qed.

Lemma is_matching_returns_inv st c b st' :
  is_matching c st = (Normal b, st') -> nullish c = false.
Proof.
  unfold is_matching, bind, lift. destruct (Get c "props") eqn:E; [| discriminate].
  intros _. eapply Get_nullish, E.
Qed.

Lemma is_matching_true_inv st c :
  is_matching c st = (Normal true, st) ->
  exists props,
    Get c "props" = Normal props /\
    Get props "component" = Normal (VStr (componentType (this st))).
Proof.
  unfold is_matching, bind, lift. destruct (Get c "props") as [props |] eqn:E; [| discriminate].
  destruct (truthy props); [| discriminate]. cbn [and_then].
  destruct (Get props "component") as [type |] eqn:Et; [| discriminate].
  unfold read, ret. cbn [this]. intros [= H]. exists props. split; [reflexivity |].
  destruct type; try discriminate. apply String.eqb_eq in H. subst. exact Et.
Qed.

Lemma filter_returns_inv st items kept :
  result_of (filter is_matching items st) = Normal kept ->
  Forall (fun c => nullish c = false) items /\ (forall c, In c kept -> In c items).
Proof.
  revert kept. induction items as [| x rest IH]; intros kept; cbn [filter].
  - intros [= <-]. split; [constructor | auto].
  - unfold bind at 1. rewrite (run_preserves _ st (is_matching_preserves x)).
    destruct (result_of (is_matching x st)) as [keep |] eqn:Hx; [| discriminate].
    unfold bind at 1.
    rewrite (run_preserves _ st (filter_preserves _ rest is_matching_preserves)).
    destruct (result_of (filter is_matching rest st)) as [kept' |] eqn:Hr; [| discriminate].
    intros [= <-]. destruct (IH _ eq_refl) as [Hall Hsub]. split.
    + constructor; [| exact Hall].
      eapply (is_matching_returns_inv st x keep st).
      rewrite (run_preserves _ st (is_matching_preserves x)), Hx. reflexivity.
    + intros c Hin. destruct keep; [destruct Hin as [<- | Hin] |]; simpl; auto.
Qed.

Lemma validate_returns_inv matcher schema r :
  result_of (call_validate matcher schema) = Normal r ->
  nullish schema = false /\
  (forall updateComponents components,
      Get schema "updateComponents" = Normal updateComponents ->
      Get updateComponents "components" = Normal (VArr components) ->
      Forall (fun c => nullish c = false) components).
Proof.
  unfold call_validate, validate. rewrite run_read. cbn [message].
  destruct (Get schema "updateComponents") as [u |] eqn:Hu;
    [| rewrite run_throw; discriminate].
  intros Hr. split; [eapply Get_nullish, Hu |].
  intros updateComponents components [= <-] Hcs.
  destruct (Get_named u "components" _ eq_refl Hcs eq_refl) as (ufields & -> & _).
  rewrite run_normal in Hr. cbn [truthy negb] in Hr.
  rewrite run_normal, (run_Get _ _ _ _ _ Hcs) in Hr.
  unfold bind at 1 in Hr.
  rewrite (run_preserves _ _ (filter_preserves _ components is_matching_preserves)) in Hr.
  destruct (result_of (filter is_matching components _)) as [kept |] eqn:Hk;
    [| discriminate].
  apply (filter_returns_inv _ _ _ Hk).
Qed.

(** X11.  [validate] returns only on a message that is neither [null]
    nor [undefined] and whose components, where it reaches the array, are
    neither [null] nor [undefined]: every element of the array is read. *)
Theorem validate_returns_only_on_components matcher schema r :
  result_of (call_validate matcher schema) = Normal r ->
  nullish schema = false /\
  (forall updateComponents components,
      Get schema "updateComponents" = Normal updateComponents ->
      Get updateComponents "components" = Normal (VArr components) ->
      Forall (fun c => nullish c = false) components).
Proof. apply validate_returns_inv. Qed.

Lemma validate_returns_only_on_components_witness :
  nullish (VObj [("updateComponents", VObj [("components", VArr [VNum 3%float])])]) = false /\
  (forall updateComponents components,
      Get (VObj [("updateComponents", VObj [("components", VArr [VNum 3%float])])])
        "updateComponents" = Normal updateComponents ->
      Get updateComponents "components" = Normal (VArr components) ->
      Forall (fun c => nullish c = false) components).
Proof.
  apply (validate_returns_only_on_components (constructor "Text" None None None)
           (VObj [("updateComponents", VObj [("components", VArr [VNum 3%float])])])
           {| success := false; error := Some "Failed to find component of type 'Text'." |}).
  reflexivity.
Defined.

(** X12.  [validate] succeeds only on a message that has a component of
    the configured type, whatever else is configured. *)
Theorem validate_success_needs_component matcher schema r :
  result_of (call_validate matcher schema) = Normal r ->
  success r = true ->
  exists updateComponents components c props,
    Get schema "updateComponents" = Normal updateComponents /\
    Get updateComponents "components" = Normal (VArr components) /\
    In c components /\
    Get c "props" = Normal props /\
    Get props "component" = Normal (VStr (componentType matcher)).
Proof.
  unfold call_validate, validate. rewrite run_read. cbn [message].
  destruct (Get schema "updateComponents") as [u |] eqn:Hu;
    [| rewrite run_throw; discriminate].
  rewrite run_normal.
  destruct (truthy u) eqn:Ht; cbn [negb]; [| intros [= <-]; discriminate].
  rewrite run_normal.
  destruct (Get u "components") as [cs |] eqn:Hcs;
    [| rewrite run_throw; discriminate].
  rewrite run_normal.
  destruct cs as [| | | | | components |]; try (intros [= <-]; discriminate).
  unfold bind at 1.
  rewrite (run_preserves _ _ (filter_preserves _ components is_matching_preserves)).
  destruct (result_of (filter is_matching components _)) as [kept |] eqn:Hk;
    [| discriminate].
  destruct kept as [| c kept]; [intros [= <-]; discriminate |].
  intros _ _.
  destruct (filter_returns_inv _ _ _ Hk) as [_ Hsub].
  destruct (is_matching_true_inv _ c (filter_selected _ _ _ c Hk (or_introl eq_refl)))
    as (props & Hp & Hc).
  exists u, components, c, props. auto using in_eq.
Qed.

Lemma validate_success_needs_component_witness :
  exists updateComponents components c props,
    Get (VObj [("updateComponents",
                VObj [("components",
                       VArr [VObj [("props", VObj [("component", VStr "Text");
                                                   ("text", VStr "hi")])]])])])
      "updateComponents" = Normal updateComponents /\
    Get updateComponents "components" = Normal (VArr components) /\
    In c components /\
    Get c "props" = Normal props /\
    Get props "component"
      = Normal (VStr (componentType (constructor "Text" (Some "text") None None))).
Proof.
  apply (validate_success_needs_component (constructor "Text" (Some "text") None None)
           (VObj [("updateComponents",
                   VObj [("components",
                          VArr [VObj [("props", VObj [("component", VStr "Text");
                                                      ("text", VStr "hi")])]])])])
           {| success := true; error := None |});
    reflexivity.
Defined.

Lemma result_of_bind {A B : Type} (c : M A) (k : A -> M B) st :
  preserves c ->
  result_of (bind c k st)
  = match result_of (c st) with
    | Normal a => result_of (k a st)
    | Throw e => Throw e
    end.
Proof.
  intros H. unfold bind. rewrite (run_preserves c st H).
  destruct (result_of (c st)); reflexivity.
Qed.

Lemma is_matching_componentType st1 st2 c :
  componentType (this st1) = componentType (this st2) ->
  result_of (is_matching c st1) = result_of (is_matching c st2).
Proof.
  intros H. unfold is_matching, bind, lift, and_then, read, ret, result_of.
  destruct (Get c "props") as [props |]; [| reflexivity]. simpl.
  destruct (truthy props); [| reflexivity].
  destruct (Get props "component"); [| reflexivity]. simpl. rewrite H. reflexivity.
Qed.

Lemma filter_componentType st1 st2 items :
  componentType (this st1) = componentType (this st2) ->
  result_of (filter is_matching items st1) = result_of (filter is_matching items st2).
Proof.
  intros H. induction items as [| x rest IH]; [reflexivity |].
  cbn [filter]. rewrite !result_of_bind by apply is_matching_preserves.
  rewrite (is_matching_componentType st1 st2 x H).
  destruct (result_of (is_matching x st2)); [| reflexivity].
  rewrite !result_of_bind by apply (filter_preserves _ _ is_matching_preserves).
  rewrite IH. destruct (result_of (filter is_matching rest st2)); reflexivity.
Qed.

(** X13.  With no property name, or with the empty string as the name,
    the expected value and the flag are not looked at: two such matchers of
    one component type give the same verdict on every message, also a
    malformed one, and have the same description. *)
Theorem validate_without_name_ignores_value matcher1 matcher2 schema :
  componentType matcher1 = componentType matcher2 ->
  configured (propertyName matcher1) = false ->
  configured (propertyName matcher2) = false ->
  result_of (call_validate matcher1 schema) = result_of (call_validate matcher2 schema) /\
  result_of (description {| this := matcher1; message := schema |})
  = result_of (description {| this := matcher2; message := schema |}).
Proof.
  intros Hct Hn1 Hn2. split.
  - unfold call_validate, validate. rewrite !run_read. cbn [message].
    destruct (Get schema "updateComponents") as [u |]; [| reflexivity].
    rewrite !run_normal.
    destruct (truthy u); cbn [negb]; [| reflexivity].
    rewrite !run_normal.
    destruct (Get u "components") as [cs |]; [| reflexivity].
    rewrite !run_normal.
    destruct cs as [| | | | | components |]; try reflexivity.
    rewrite !result_of_bind by apply (filter_preserves _ _ is_matching_preserves).
    rewrite (filter_componentType {| this := matcher1; message := schema |}
               {| this := matcher2; message := schema |} _ Hct).
    destruct (result_of (filter is_matching components _)) as [kept |]; [| reflexivity].
    destruct (Nat.eqb (List.length kept) 0).
    + rewrite !run_read. cbn [this]. rewrite Hct. reflexivity.
    + rewrite !run_read. cbn [this]. rewrite Hn1, Hn2. reflexivity.
  - unfold description. rewrite !run_read. cbn [this].
    rewrite Hn1, Hn2, Hct. reflexivity.
Qed.

Lemma validate_without_name_ignores_value_witness :
  let schema :=
    VObj [("updateComponents",
           VObj [("components", VArr [VObj [("props", VObj [("component", VStr "Text")])]])])] in
  let matcher1 := constructor "Text" None None None in
  let matcher2 := constructor "Text" (Some "") (Some (Literal (VStr "never there"))) (Some true) in
  result_of (call_validate matcher1 schema) = result_of (call_validate matcher2 schema) /\
  result_of (description {| this := matcher1; message := schema |})
  = result_of (description {| this := matcher2; message := schema |}).
Proof.
  apply (validate_without_name_ignores_value
           (constructor "Text" None None None)
           (constructor "Text" (Some "") (Some (Literal (VStr "never there"))) (Some true))
           (VObj [("updateComponents",
                   VObj [("components",
                          VArr [VObj [("props", VObj [("component", VStr "Text")])]])])]));
    reflexivity.
Defined.

(** *** The loop of [validate] *)

Lemma Get_prop v key : nullish v = false -> Get v key = Normal (prop v key).
Proof.
  intros H. unfold prop. destruct (Get_returns v key H) as [x ->]. reflexivity.
Qed.

Lemma getComponentById_resolve st components id :
  Forall (fun c => nullish c = false) components ->
  getComponentById components id st = (Normal (resolve components id), st).
Proof.
  intros H. unfold getComponentById, resolve.
  induction H as [| c rest Hc _ IH]; [reflexivity |].
  cbn [find List.find].
  rewrite (run_bind _ _ _ _ (id_callback st c id _ (Get_prop c "id" Hc))).
  unfold has_id at 1. rewrite (Get_prop c "id" Hc).
  destruct (strict_equal (prop c "id") id); [reflexivity | exact IH].
Qed.

Lemma valueMatches_accepted st v :
  never_throws (propertyValue (this st)) ->
  exists r, valueMatches v (propertyValue (this st)) st = (Normal r, st)
            /\ accepted st v = truthy r.
Proof.
  intros Hf. destruct (valueMatches_returns st v _ Hf) as (r & Hr & _).
  exists r. split; [exact Hr |]. unfold accepted. rewrite Hr. reflexivity.
Qed.

Lemma is_label_value st properties :
  nullish properties = false ->
  (name <- read (fun st0 => propertyName (this st0)) ;;
   and_then (strict_equal (match name with Some s => VStr s | None => VUndefined end)
                          (VStr "label"))
     (child <- lift (Get properties "child") ;; ret (truthy child))) st
  = (Normal (strict_equal (match propertyName (this st) with
                           | Some s => VStr s
                           | None => VUndefined
                           end) (VStr "label")
             && truthy (prop properties "child")), st).
Proof.
  intros H. rewrite run_read.
  destruct (strict_equal _ (VStr "label")); [| reflexivity].
  cbn [and_then andb]. rewrite (run_Get _ _ _ _ _ (Get_prop _ "child" H)). reflexivity.
Qed.

Lemma child_is_text_value st childComponent :
  and_then (truthy childComponent)
    (props <- lift (Get childComponent "props") ;;
     and_then (truthy props)
       (type <- lift (Get props "component") ;;
        ret (strict_equal type (VStr "Text")))) st
  = (Normal (truthy childComponent
             && truthy (prop childComponent "props")
             && strict_equal (prop (prop childComponent "props") "component") (VStr "Text")),
     st).
Proof.
  destruct (truthy childComponent) eqn:Hc; [| reflexivity]. cbn [and_then andb].
  rewrite (run_Get _ _ _ _ _ (Get_prop _ "props" (truthy_not_nullish _ Hc))).
  destruct (truthy (prop childComponent "props")) eqn:Hp; [| reflexivity].
  cbn [and_then andb].
  rewrite (run_Get _ _ _ _ _ (Get_prop _ "component" (truthy_not_nullish _ Hp))).
  reflexivity.
Qed.

Lemma check_component_hit st components c :
  Forall (fun x => nullish x = false) components ->
  never_throws (propertyValue (this st)) ->
  nullish c = false ->
  check_component components c st
  = (Normal (if direct_hit st c || child_hit st components c
             then Some succeeded else None), st).
Proof.
  intros Hcs Hf Hc. unfold check_component, direct_hit, child_hit.
  rewrite (run_Get _ _ _ _ _ (Get_prop c "props" Hc)).
  destruct (truthy (prop c "props")) eqn:Hp; [| reflexivity].
  pose proof (truthy_not_nullish _ Hp) as Hpn. cbn [andb].
  rewrite run_read.
  rewrite (run_Get _ _ _ _ _ (Get_prop _ (property_key (propertyName (this st))) Hpn)).
  set (v := prop (prop c "props") (property_key (propertyName (this st)))).
  destruct (valueMatches_accepted st v Hf) as (r & Hr & Hacc).
  assert (Hdirect :
    (if negb (is_undefined v)
     then expectedValue <- read (fun st0 => propertyValue (this st0)) ;;
          (if expected_undefined expectedValue then ret (Some succeeded)
           else name <- read (fun st0 => propertyName (this st0)) ;;
                actualValue <- lift (Get (prop c "props") (property_key name)) ;;
                expectedValue0 <- read (fun st0 => propertyValue (this st0)) ;;
                r0 <- valueMatches actualValue expectedValue0 ;;
                ret (if truthy r0 then Some succeeded else None))
     else ret None) st
    = (Normal (if negb (is_undefined v)
                  && (expected_undefined (propertyValue (this st)) || accepted st v)
               then Some succeeded else None), st)).
  { destruct (negb (is_undefined v)); [| reflexivity]. cbn [andb].
    rewrite run_read.
    destruct (expected_undefined (propertyValue (this st))); [reflexivity |].
    cbn [orb]. rewrite run_read.
    rewrite (run_Get _ _ _ _ _ (Get_prop _ (property_key (propertyName (this st))) Hpn)).
    rewrite run_read. fold v. rewrite (run_bind _ _ _ _ Hr), Hacc. reflexivity. }
  rewrite (run_bind _ _ _ _ Hdirect).
  destruct (negb (is_undefined v)
            && (expected_undefined (propertyValue (this st)) || accepted st v));
    [reflexivity |].
  cbn [orb]. rewrite run_read.
  destruct (String.eqb (componentType (this st)) "Button"); cbn [and_then andb];
    [| rewrite run_ret; reflexivity].
  rewrite (run_bind _ _ _ _ (is_label_value st (prop c "props") Hpn)).
  destruct (propertyName (this st)) as [name |]; [| reflexivity].
  cbn [strict_equal].
  destruct (String.eqb name "label"); [| reflexivity].
  cbn [andb].
  destruct (truthy (prop (prop c "props") "child")); [| reflexivity].
  cbn [andb].
  rewrite (run_Get _ _ _ _ _ (Get_prop _ "child" Hpn)).
  rewrite (run_bind _ _ _ _ (getComponentById_resolve st components _ Hcs)).
  set (child := resolve components (prop (prop c "props") "child")).
  rewrite (run_bind _ _ _ _ (child_is_text_value st child)).
  destruct (truthy child) eqn:Hchild; [| reflexivity]. cbn [andb].
  destruct (truthy (prop child "props")) eqn:Hcp; [| reflexivity]. cbn [andb].
  destruct (strict_equal (prop (prop child "props") "component") (VStr "Text"));
    [| reflexivity].
  cbn [andb].
  rewrite (run_Get _ _ _ _ _ (Get_prop _ "props" (truthy_not_nullish _ Hchild))).
  rewrite (run_Get _ _ _ _ _ (Get_prop _ "text" (truthy_not_nullish _ Hcp))).
  rewrite run_read.
  destruct (valueMatches_accepted st (prop (prop child "props") "text") Hf)
    as (r' & Hr' & Hacc').
  rewrite (run_bind _ _ _ _ Hr'), Hacc'. reflexivity.
Qed.

Lemma for_of_existsb st body (h : value -> bool) items :
  Forall (fun c => body c st = (Normal (if h c then Some succeeded else None), st)) items ->
  for_of body items st = (Normal (if existsb h items then Some succeeded else None), st).
Proof.
  induction 1 as [| c rest Hc _ IH]; [reflexivity |].
  cbn [for_of existsb]. rewrite (run_bind _ _ _ _ Hc).
  destruct (h c); [reflexivity | exact IH].
Qed.

Lemma validate_verdict st updateComponents components :
  Get (message st) "updateComponents" = Normal updateComponents ->
  Get updateComponents "components" = Normal (VArr components) ->
  Forall (fun c => nullish c = false) components ->
  never_throws (propertyValue (this st)) ->
  validate st = (Normal (verdict st components), st).
Proof.
  intros Hu Hcs Hall Hf.
  destruct (Get_named updateComponents "components" _ eq_refl Hcs eq_refl)
    as (ufields & -> & _).
  unfold validate, verdict. rewrite run_read.
  rewrite (run_Get _ _ _ _ _ Hu). cbn [truthy negb].
  rewrite (run_Get _ _ _ _ _ Hu), (run_Get _ _ _ _ _ Hcs).
  rewrite (run_bind _ _ _ _ (filter_at _ _ Hall)).
  destruct (Nat.eqb _ 0); [reflexivity |].
  rewrite run_read.
  destruct (negb (configured (propertyName (this st)))); [reflexivity |].
  erewrite (run_bind (for_of _ _)).
  2:{ apply for_of_existsb. apply Forall_forall. intros c Hin.
      apply check_component_hit; [exact Hall | exact Hf |].
      apply filter_In in Hin. rewrite Forall_forall in Hall. apply Hall, Hin. }
  destruct (existsb _ _); [reflexivity |].
  rewrite !run_read.
  destruct (negb (expected_undefined (propertyValue (this st)))); reflexivity.
Qed.

Lemma expected_undefined_true e : expected_undefined e = true <-> e = Literal VUndefined.
Proof.
  destruct e as [v | f | g]; simpl; try (split; discriminate).
  destruct v; simpl; split; try discriminate; reflexivity.
Qed.

Lemma verdict_succeeded st components :
  configured (propertyName (this st)) = true ->
  verdict st components = succeeded <->
  exists c, In c components /\ matches_type (componentType (this st)) c = true /\
            (direct_hit st c || child_hit st components c) = true.
Proof.
  intros Hname. unfold verdict. rewrite Hname. cbn [negb].
  destruct (existsb _ (List.filter _ components)) eqn:E.
  - apply existsb_exists in E. destruct E as (c & Hin & Hhit).
    apply filter_In in Hin. destruct Hin as [Hin Hm].
    assert (Hne : List.filter (matches_type (componentType (this st))) components <> [])
      by (intros Hnil; assert (Hc : In c (List.filter (matches_type (componentType (this st)))
                                              components))
            by (apply filter_In; auto); rewrite Hnil in Hc; destruct Hc).
    destruct (List.filter _ components); [contradiction |].
    cbn [List.length Nat.eqb]. split; [eauto | reflexivity].
  - split.
    + destruct (Nat.eqb _ 0); [discriminate |].
      destruct (negb (expected_undefined _)); discriminate.
    + intros (c & Hin & Hm & Hhit). exfalso.
      assert (Hex : existsb (fun c0 => direct_hit st c0 || child_hit st components c0)
                      (List.filter (matches_type (componentType (this st))) components) = true)
        by (apply existsb_exists; exists c; split; [apply filter_In; auto | exact Hhit]).
      congruence.
Qed.

Lemma accepted_true st v :
  accepted st v = true <->
  exists r, result_of (valueMatches v (propertyValue (this st)) st) = Normal r
            /\ truthy r = true.
Proof.
  unfold accepted. destruct (result_of (valueMatches v _ st)) as [r |].
  - split; [eauto | intros (r' & [= <-] & H); exact H].
  - split; [discriminate | intros (r' & H & _); discriminate].
Qed.

Lemma prop_Get v key x : Get v key = Normal x -> prop v key = x.
Proof. intros H. unfold prop. rewrite H. reflexivity. Qed.

Lemma child_hit_excluded st components c :
  componentType (this st) <> "Button" \/
  propertyName (this st) <> Some "label" \/
  propertyValue (this st) = Literal VUndefined ->
  child_hit st components c = false.
Proof.
  intros H. unfold child_hit.
  destruct (truthy (prop c "props")); [| reflexivity]. cbn [andb].
  destruct (String.eqb (componentType (this st)) "Button") eqn:Ect; [| reflexivity].
  cbn [andb]. apply String.eqb_eq in Ect.
  destruct (propertyName (this st)) as [name |] eqn:En; [| reflexivity].
  destruct (String.eqb name "label") eqn:El; [| reflexivity].
  apply String.eqb_eq in El. subst name. cbn [andb].
  destruct H as [H | [H | H]]; try contradiction; try (contradiction H; reflexivity).
  unfold accepted. rewrite H, valueMatches_literal_undefined. apply andb_false_r.
Qed.

(** X14.  A matcher with a property name, other than the Button matcher
    of a label with an expected value, looks at the property itself only:
    [validate] succeeds exactly when a component of the configured type has
    the property, not [undefined], and either no expected value is
    configured or [valueMatches] holds of its value.  Without an expected
    value the text of the child of a Button does not count.  The name is
    none of those an object inherits ([toString], [constructor], ...), which
    every component has. *)
Theorem validate_direct_property matcher schema updateComponents components name :
  let st := {| this := matcher; message := schema |} in
  Get schema "updateComponents" = Normal updateComponents ->
  Get updateComponents "components" = Normal (VArr components) ->
  Forall (fun c => nullish c = false) components ->
  never_throws (propertyValue matcher) ->
  propertyName matcher = Some name ->
  name <> "" ->
  inherited name = false ->
  (componentType matcher <> "Button" \/ name <> "label" \/
   propertyValue matcher = Literal VUndefined) ->
  result_of (call_validate matcher schema) = Normal {| success := true; error := None |} <->
  exists c props v,
    In c components /\
    Get c "props" = Normal props /\
    Get props "component" = Normal (VStr (componentType matcher)) /\
    Get props name = Normal v /\
    is_undefined v = false /\
    (propertyValue matcher = Literal VUndefined \/
     exists r, result_of (valueMatches v (propertyValue matcher) st) = Normal r
               /\ truthy r = true).
Proof.
  intros st Hu Hcs Hall Hf Hname Hne _ Hchild.
  assert (Hconf : configured (propertyName (this st)) = true).
  { cbn [st this]. rewrite Hname. cbn [configured].
    apply negb_true_iff, String.eqb_neq, Hne. }
  assert (Hex : componentType (this st) <> "Button" \/
                propertyName (this st) <> Some "label" \/
                propertyValue (this st) = Literal VUndefined).
  { cbn [st this]. rewrite Hname.
    destruct Hchild as [H | [H | H]]; auto. right. left. congruence. }
  unfold call_validate. fold st.
  rewrite (validate_verdict st _ _ Hu Hcs Hall Hf). unfold result_of. cbn [fst].
  split.
  - intros [= Hv]. apply (verdict_succeeded st components Hconf) in Hv.
    destruct Hv as (c & Hin & Hm & Hhit).
    rewrite (child_hit_excluded st components c Hex), orb_false_r in Hhit.
    apply matches_type_true in Hm. destruct Hm as (props & Hp & Ht).
    unfold direct_hit in Hhit. rewrite (prop_Get _ _ _ Hp) in Hhit.
    cbn [st this] in Hhit. rewrite Hname in Hhit. cbn [property_key] in Hhit.
    apply andb_true_iff in Hhit. destruct Hhit as [Hhit Hacc].
    apply andb_true_iff in Hhit. destruct Hhit as [Htp Hv].
    exists c, props, (prop props name).
    repeat split; auto.
    + apply Get_prop, truthy_not_nullish, Htp.
    + apply negb_true_iff, Hv.
    + apply orb_true_iff in Hacc. destruct Hacc as [Hacc | Hacc].
      * left. apply expected_undefined_true, Hacc.
      * right. apply (accepted_true {| this := matcher; message := schema |}), Hacc.
  - intros (c & props & v & Hin & Hp & Ht & Hv & Hvu & Hacc).
    f_equal. apply (verdict_succeeded st components Hconf).
    exists c. split; [exact Hin |]. split; [apply matches_type_true; eauto |].
    apply orb_true_iff. left. unfold direct_hit.
    rewrite (prop_Get _ _ _ Hp). cbn [st this]. rewrite Hname. cbn [property_key].
    rewrite (prop_Get _ _ _ Hv), Hvu.
    destruct (Get_named props "component" _ eq_refl Ht eq_refl) as (fields & -> & _).
    cbn [truthy negb andb].
    apply orb_true_iff. destruct Hacc as [Hacc | Hacc].
    + left. apply expected_undefined_true, Hacc.
    + right. apply (accepted_true {| this := matcher; message := schema |}), Hacc.
Qed.

Lemma validate_direct_property_witness :
  let matcher := constructor "Text" (Some "text") (Some (Literal (VStr "hello"))) (Some true) in
  let components :=
    [VObj [("id", VStr "t");
           ("props", VObj [("component", VStr "Text"); ("text", VStr "Hello")])]] in
  let schema := VObj [("updateComponents", VObj [("components", VArr components)])] in
  result_of (call_validate matcher schema) = Normal {| success := true; error := None |} <->
  exists c props v,
    In c components /\
    Get c "props" = Normal props /\
    Get props "component" = Normal (VStr (componentType matcher)) /\
    Get props "text" = Normal v /\
    is_undefined v = false /\
    (propertyValue matcher = Literal VUndefined \/
     exists r, result_of (valueMatches v (propertyValue matcher)
                            {| this := matcher; message := schema |}) = Normal r
               /\ truthy r = true).
Proof.
  apply (validate_direct_property
           (constructor "Text" (Some "text") (Some (Literal (VStr "hello"))) (Some true))
           (VObj [("updateComponents",
                   VObj [("components",
                          VArr [VObj [("id", VStr "t");
                                      ("props", VObj [("component", VStr "Text");
                                                      ("text", VStr "Hello")])]])])])
           (VObj [("components",
                   VArr [VObj [("id", VStr "t");
                               ("props", VObj [("component", VStr "Text");
                                               ("text", VStr "Hello")])]])])
           [VObj [("id", VStr "t");
                  ("props", VObj [("component", VStr "Text"); ("text", VStr "Hello")])]]
           "text").
  - reflexivity.
  - reflexivity.
  - repeat constructor.
  - exact I.
  - reflexivity.
  - discriminate.
  - reflexivity.
  - left. discriminate.
Defined.

Lemma validate_success_inv st r :
  result_of (validate st) = Normal r ->
  success r = true ->
  exists updateComponents components,
    Get (message st) "updateComponents" = Normal updateComponents /\
    Get updateComponents "components" = Normal (VArr components) /\
    Forall (fun c => nullish c = false) components.
Proof.
  unfold validate. rewrite run_read.
  destruct (Get (message st) "updateComponents") as [u |] eqn:Hu;
    [| rewrite run_throw; discriminate].
  rewrite run_normal.
  destruct (truthy u) eqn:Ht; cbn [negb]; [| intros [= <-]; discriminate].
  rewrite run_normal.
  destruct (Get u "components") as [cs |] eqn:Hcs;
    [| rewrite run_throw; discriminate].
  rewrite run_normal.
  destruct cs as [| | | | | components |]; try (intros [= <-]; discriminate).
  unfold bind at 1.
  rewrite (run_preserves _ _ (filter_preserves _ components is_matching_preserves)).
  destruct (result_of (filter is_matching components _)) as [kept |] eqn:Hk;
    [| discriminate].
  intros _ _. exists u, components. repeat split; auto.
  apply (filter_returns_inv _ _ _ Hk).
Qed.

Lemma accepted_flag st e v :
  propertyValue (this st) = Literal e ->
  accepted (with_flag st false) v = true -> accepted (with_flag st true) v = true.
Proof.
  intros He. unfold accepted. cbn [with_flag this propertyValue]. rewrite He.
  rewrite !valueMatches_literal. cbn [result_of fst truthy with_flag this caseInsensitive].
  apply literal_match_flag.
Qed.

Lemma hit_flag st e components c :
  propertyValue (this st) = Literal e ->
  (direct_hit (with_flag st false) c || child_hit (with_flag st false) components c) = true ->
  (direct_hit (with_flag st true) c || child_hit (with_flag st true) components c) = true.
Proof.
  intros He. rewrite !orb_true_iff. unfold direct_hit, child_hit.
  cbn [with_flag this propertyName componentType propertyValue].
  intros [H | H]; [left | right].
  - rewrite !andb_true_iff in *. destruct H as [H Hacc]. split; [exact H |].
    rewrite orb_true_iff in *. destruct Hacc as [Hacc | Hacc]; [auto | right].
    apply (accepted_flag st e _ He), Hacc.
  - rewrite !andb_true_iff in *. destruct H as [H Hacc]. split; [exact H |].
    apply (accepted_flag st e _ He), Hacc.
Qed.

Lemma verdict_flag st e components :
  propertyValue (this st) = Literal e ->
  verdict (with_flag st false) components = succeeded ->
  verdict (with_flag st true) components = succeeded.
Proof.
  intros He. destruct (configured (propertyName (this st))) eqn:Hconf.
  - rewrite (verdict_succeeded (with_flag st false) components Hconf),
      (verdict_succeeded (with_flag st true) components Hconf).
    intros (c & Hin & Hm & Hhit). exists c. split; [exact Hin |]. split; [exact Hm |].
    apply (hit_flag st e components c He), Hhit.
  - unfold verdict. cbn [with_flag this propertyName componentType]. rewrite Hconf.
    auto.
Qed.

(** X15.  Against a literal, a message that [validate] accepts with
    [caseInsensitive = false] is accepted with [caseInsensitive = true]. *)
Theorem validate_flag_adds_successes
    (ct : string) (pn : option string) (e : value) (schema : value) :
  result_of (call_validate {| componentType := ct; propertyName := pn;
                              propertyValue := Literal e; caseInsensitive := false |}
               schema)
  = Normal {| success := true; error := None |} ->
  result_of (call_validate {| componentType := ct; propertyName := pn;
                              propertyValue := Literal e; caseInsensitive := true |}
               schema)
  = Normal {| success := true; error := None |}.
Proof.
  set (st := {| this := {| componentType := ct; propertyName := pn;
                           propertyValue := Literal e; caseInsensitive := false |};
                message := schema |}).
  unfold call_validate.
  change (result_of (validate (with_flag st false)) = Normal succeeded ->
          result_of (validate (with_flag st true)) = Normal succeeded).
  intros H.
  destruct (validate_success_inv _ _ H eq_refl) as (u & components & Hu & Hcs & Hall).
  rewrite (validate_verdict (with_flag st false) u components Hu Hcs Hall I) in H.
  rewrite (validate_verdict (with_flag st true) u components Hu Hcs Hall I).
  unfold result_of in *. cbn [fst] in *. injection H as H.
  rewrite (verdict_flag st e components eq_refl H). reflexivity.
Qed.

Lemma validate_flag_adds_successes_witness :
  result_of (call_validate {| componentType := "Text"; propertyName := Some "text";
                              propertyValue := Literal (VStr "Hello");
                              caseInsensitive := true |}
               (VObj [("updateComponents",
                       VObj [("components",
                              VArr [VObj [("props", VObj [("component", VStr "Text");
                                                          ("text", VStr "Hello")])]])])]))
  = Normal {| success := true; error := None |}.
Proof.
  apply (validate_flag_adds_successes "Text" (Some "text") (VStr "Hello")
           (VObj [("updateComponents",
                   VObj [("components",
                          VArr [VObj [("props", VObj [("component", VStr "Text");
                                                      ("text", VStr "Hello")])]])])])).
  reflexivity.
Defined.

(** X16.  Where a component of the configured type exists and
    [validate] fails, a property name is configured and the error names the
    type and the property, and then the expected value: the JSON text of a
    literal, nothing for no expected value, and the word undefined for a
    predicate, which [JSON.stringify] does not write. *)
Theorem validate_failure_text matcher schema updateComponents components c props r :
  Get schema "updateComponents" = Normal updateComponents ->
  Get updateComponents "components" = Normal (VArr components) ->
  Forall (fun x => nullish x = false) components ->
  never_throws (propertyValue matcher) ->
  In c components ->
  Get c "props" = Normal props ->
  Get props "component" = Normal (VStr (componentType matcher)) ->
  result_of (call_validate matcher schema) = Normal r ->
  success r = false ->
  exists name,
    propertyName matcher = Some name /\ name <> "" /\
    error r = Some ("Failed to find component of type '" ++ componentType matcher
                    ++ "' with property '" ++ name ++ "'"
                    ++ match propertyValue matcher with
                       | Literal VUndefined => "."
                       | Literal v => " containing value " ++ template (JSON_stringify v) ++ "."
                       | Predicate _ | Effectful _ => " containing value undefined."
                       end).
Proof.
  intros Hu Hcs Hall Hf Hin Hp Ht Hr Hfail.
  unfold call_validate in Hr.
  rewrite (validate_verdict {| this := matcher; message := schema |} _ _ Hu Hcs Hall Hf) in Hr.
  unfold result_of in Hr. cbn [fst] in Hr. injection Hr as <-.
  unfold verdict in *. cbn [this] in *.
  assert (Hsel : In c (List.filter (matches_type (componentType matcher)) components))
    by (apply filter_In; split; [exact Hin | apply matches_type_true; eauto]).
  destruct (List.filter (matches_type (componentType matcher)) components);
    [destruct Hsel |].
  cbn [List.length Nat.eqb] in *.
  destruct (propertyName matcher) as [name |]; [| discriminate].
  cbn [configured] in *.
  destruct (String.eqb name "") eqn:En; [discriminate |]. cbn [negb] in *.
  exists name. split; [reflexivity |]. split; [apply String.eqb_neq, En |].
  destruct (existsb _ _); [discriminate |].
  destruct (propertyValue matcher) as [[] | f | g]; reflexivity.
Qed.

Lemma validate_failure_text_witness :
  let matcher :=
    constructor "Text" (Some "text") (Some (Predicate (fun _ => Normal (VBool false)))) None in
  exists name,
    propertyName matcher = Some name /\ name <> "" /\
    error {| success := false;
             error := Some "Failed to find component of type 'Text' with property 'text' containing value undefined." |}
    = Some ("Failed to find component of type '" ++ componentType matcher
            ++ "' with property '" ++ name ++ "'"
            ++ match propertyValue matcher with
               | Literal VUndefined => "."
               | Literal v => " containing value " ++ template (JSON_stringify v) ++ "."
               | Predicate _ | Effectful _ => " containing value undefined."
               end).
Proof.
  apply (validate_failure_text
           (constructor "Text" (Some "text") (Some (Predicate (fun _ => Normal (VBool false)))) None)
           (VObj [("updateComponents",
                   VObj [("components",
                          VArr [VObj [("props", VObj [("component", VStr "Text");
                                                      ("text", VStr "hi")])]])])])
           (VObj [("components",
                   VArr [VObj [("props", VObj [("component", VStr "Text");
                                               ("text", VStr "hi")])]])])
           [VObj [("props", VObj [("component", VStr "Text"); ("text", VStr "hi")])]]
           (VObj [("props", VObj [("component", VStr "Text"); ("text", VStr "hi")])])
           (VObj [("component", VStr "Text"); ("text", VStr "hi")]));
    try reflexivity.
  - repeat constructor.
  - intros v. eexists. reflexivity.
  - left. reflexivity.
Defined.

Lemma Get_throws v key e :
  Get v key = Throw e -> exists text, e = TypeError text.
Proof.
  destruct v; simpl; try discriminate; try (intros [= <-]; eauto).
  - destruct (String.eqb key "length"); [discriminate |].
    destruct (element 0 key _); discriminate.
  - destruct (String.eqb key "length"); [discriminate |].
    destruct (element 0 key _); discriminate.
Qed.

Lemma is_matching_throws st c e :
  result_of (is_matching c st) = Throw e -> exists text, e = TypeError text.
Proof.
  unfold is_matching, bind, lift, result_of.
  destruct (Get c "props") as [props |] eqn:Hp; cbn [fst].
  - destruct (truthy props); cbn [and_then]; [| discriminate].
    destruct (Get props "component") as [type |] eqn:Ht; [discriminate |].
    cbn [fst]. intros [= <-]. eapply Get_throws, Ht.
  - intros [= <-]. eapply Get_throws, Hp.
Qed.

Lemma filter_throws st items e :
  result_of (filter is_matching items st) = Throw e -> exists text, e = TypeError text.
Proof.
  induction items as [| x rest IH]; [discriminate |].
  cbn [filter]. rewrite result_of_bind by apply is_matching_preserves.
  destruct (result_of (is_matching x st)) eqn:Hx.
  - rewrite result_of_bind by apply (filter_preserves _ _ is_matching_preserves).
    destruct (result_of (filter is_matching rest st)); [discriminate |].
    intros [= <-]. apply IH. reflexivity.
  - intros [= <-]. eapply is_matching_throws, Hx.
Qed.

(** X17.  With a literal as the expected value, [validate] throws
    nothing but the [TypeError] of a read on [null] or [undefined]. *)
Theorem validate_throws_only_TypeError
    (ct : string) (pn : option string) (e : value) (ci : bool) (schema : value) (x : exn) :
  result_of (call_validate {| componentType := ct; propertyName := pn;
                              propertyValue := Literal e; caseInsensitive := ci |}
               schema) = Throw x ->
  exists text, x = TypeError text.
Proof.
  set (matcher := {| componentType := ct; propertyName := pn;
                     propertyValue := Literal e; caseInsensitive := ci |}).
  unfold call_validate.
  set (st := {| this := matcher; message := schema |}).
  destruct (Get schema "updateComponents") as [u |] eqn:Hu.
  2:{ unfold validate. rewrite run_read. cbn [st message]. rewrite Hu, run_throw.
      intros [= <-]. eapply Get_throws, Hu. }
  destruct (truthy u) eqn:Htu.
  2:{ unfold validate. rewrite run_read. cbn [st message].
      rewrite Hu, run_normal, Htu. discriminate. }
  destruct (Get_returns u "components" (truthy_not_nullish _ Htu)) as [cs Hcs].
  destruct cs as [| | | | | components |];
    try (unfold validate; rewrite run_read; cbn [st message];
         rewrite Hu, run_normal, Htu; cbn [negb]; rewrite run_normal, Hcs, run_normal;
         discriminate).
  destruct (result_of (filter is_matching components st)) as [kept |] eqn:Hk.
  - destruct (filter_returns_inv _ _ _ Hk) as [Hall _].
    rewrite (validate_verdict st u components Hu Hcs Hall I). discriminate.
  - unfold validate. rewrite run_read. cbn [st message].
    rewrite Hu, run_normal, Htu. cbn [negb]. rewrite run_normal, Hcs, run_normal.
    rewrite result_of_bind by apply (filter_preserves _ _ is_matching_preserves).
    fold st. rewrite Hk. intros [= <-]. eapply filter_throws, Hk.
Qed.

Lemma validate_throws_only_TypeError_witness :
  exists text,
    TypeError "Cannot read properties of null (reading 'props')" = TypeError text.
Proof.
  apply (validate_throws_only_TypeError "Text" (Some "text") (VStr "hi") false
           (VObj [("updateComponents", VObj [("components", VArr [VNull])])])
           (TypeError "Cannot read properties of null (reading 'props')")).
  reflexivity.
Defined.

Lemma Get_truthy_object v key x :
  named key = true -> Get v key = Normal x -> is_undefined x = false -> truthy v = true.
Proof.
  intros Hk HG Hx. destruct (Get_named v key x Hk HG Hx) as (fields & -> & _). reflexivity.
Qed.

(** X18.  The Button matcher of a label succeeds exactly when a Button
    has a label of its own that is accepted, or a truthy [child] that is
    the identifier of a component of type Text whose text [valueMatches]
    accepts. *)
Theorem validate_button_label_exactly matcher schema updateComponents components :
  let st := {| this := matcher; message := schema |} in
  Get schema "updateComponents" = Normal updateComponents ->
  Get updateComponents "components" = Normal (VArr components) ->
  Forall (fun c => nullish c = false) components ->
  never_throws (propertyValue matcher) ->
  componentType matcher = "Button" ->
  propertyName matcher = Some "label" ->
  result_of (call_validate matcher schema) = Normal {| success := true; error := None |} <->
  exists button props,
    In button components /\
    Get button "props" = Normal props /\
    Get props "component" = Normal (VStr "Button") /\
    ((exists label,
         Get props "label" = Normal label /\ is_undefined label = false /\
         (propertyValue matcher = Literal VUndefined \/
          exists r, result_of (valueMatches label (propertyValue matcher) st) = Normal r
                    /\ truthy r = true))
     \/
     (exists child childComponent childProps textValue r,
         Get props "child" = Normal child /\ truthy child = true /\
         result_of (getComponentById components child st) = Normal childComponent /\
         Get childComponent "props" = Normal childProps /\
         Get childProps "component" = Normal (VStr "Text") /\
         Get childProps "text" = Normal textValue /\
         result_of (valueMatches textValue (propertyValue matcher) st) = Normal r /\
         truthy r = true)).
Proof.
  intros st Hu Hcs Hall Hf Hct Hname.
  assert (Hconf : configured (propertyName (this st)) = true)
    by (cbn [st this]; rewrite Hname; reflexivity).
  unfold call_validate. fold st.
  rewrite (validate_verdict st _ _ Hu Hcs Hall Hf). unfold result_of at 1. cbn [fst].
  split.
  - intros [= Hv]. apply (verdict_succeeded st components Hconf) in Hv.
    destruct Hv as (c & Hin & Hm & Hhit).
    apply matches_type_true in Hm. destruct Hm as (props & Hp & Ht).
    cbn [st this] in Ht. rewrite Hct in Ht.
    exists c, props. repeat split; auto.
    apply orb_true_iff in Hhit. destruct Hhit as [Hhit | Hhit].
    + left. unfold direct_hit in Hhit. rewrite (prop_Get _ _ _ Hp) in Hhit.
      cbn [st this] in Hhit. rewrite Hname in Hhit. cbn [property_key] in Hhit.
      apply andb_true_iff in Hhit. destruct Hhit as [Hhit Hacc].
      apply andb_true_iff in Hhit. destruct Hhit as [Htp Hv].
      exists (prop props "label"). repeat split.
      * apply Get_prop, truthy_not_nullish, Htp.
      * apply negb_true_iff, Hv.
      * apply orb_true_iff in Hacc. destruct Hacc as [Hacc | Hacc].
        -- left. apply expected_undefined_true, Hacc.
        -- right. apply (accepted_true {| this := matcher; message := schema |}), Hacc.
    + right. unfold child_hit in Hhit. rewrite (prop_Get _ _ _ Hp) in Hhit.
      repeat (apply andb_true_iff in Hhit; destruct Hhit as [Hhit ?]).
      set (child := prop props "child") in *.
      set (cc := resolve components child) in *.
      match goal with H : accepted _ _ = true |- _ =>
        apply accepted_true in H; destruct H as (r & Hr & Htr) end.
      exists child, cc, (prop cc "props"), (prop (prop cc "props") "text"), r.
      repeat split; auto.
      * apply Get_prop, truthy_not_nullish, Hhit.
      * rewrite (getComponentById_resolve st components child Hall). reflexivity.
      * apply Get_prop, truthy_not_nullish. assumption.
      * match goal with H : strict_equal ?t (VStr "Text") = true |- _ =>
          assert (Hty : t = VStr "Text")
            by (destruct t; try discriminate; apply String.eqb_eq in H; subst; reflexivity) end.
        rewrite <- Hty. apply Get_prop, truthy_not_nullish. assumption.
      * apply Get_prop, truthy_not_nullish. assumption.
  - intros (c & props & Hin & Hp & Ht & Hcase).
    f_equal. apply (verdict_succeeded st components Hconf).
    exists c. split; [exact Hin |]. split.
    { apply matches_type_true. exists props. cbn [st this]. rewrite Hct. auto. }
    pose proof (Get_truthy_object props "component" _ eq_refl Ht eq_refl) as Htp.
    apply orb_true_iff.
    destruct Hcase as [(label & Hl & Hlu & Hacc)
                      | (child & cc & cprops & text & r & Hc & Htc & Hfind & Hcp & Hcty & Htx & Hr & Htr)].
    + left. unfold direct_hit. rewrite (prop_Get _ _ _ Hp). cbn [st this].
      rewrite Hname. cbn [property_key]. rewrite (prop_Get _ _ _ Hl), Hlu, Htp.
      cbn [negb andb]. apply orb_true_iff. destruct Hacc as [Hacc | Hacc].
      * left. apply expected_undefined_true, Hacc.
      * right. apply (accepted_true {| this := matcher; message := schema |}), Hacc.
    + right. unfold child_hit. rewrite (prop_Get _ _ _ Hp), Htp. cbn [st this].
      rewrite Hct, Hname, (prop_Get _ _ _ Hc), Htc.
      rewrite (getComponentById_resolve st components child Hall) in Hfind.
      unfold result_of in Hfind. cbn [fst] in Hfind. injection Hfind as Hfind.
      rewrite Hfind, (prop_Get _ _ _ Hcp), (prop_Get _ _ _ Hcty), (prop_Get _ _ _ Htx).
      pose proof (Get_truthy_object cprops "component" _ eq_refl Hcty eq_refl) as Htcp.
      assert (Hcu : is_undefined cprops = false) by (destruct cprops; try discriminate; reflexivity).
      rewrite (Get_truthy_object cc "props" _ eq_refl Hcp Hcu), Htcp.
      cbn [String.eqb Ascii.eqb Bool.eqb strict_equal andb].
      apply (accepted_true {| this := matcher; message := schema |}). eauto.
Qed.

Lemma validate_button_label_exactly_witness :
  let matcher := constructor "Button" (Some "label") (Some (Literal (VStr "OK"))) None in
  let components :=
    [VObj [("id", VStr "b");
           ("props", VObj [("component", VStr "Button"); ("child", VStr "t")])];
     VObj [("id", VStr "t");
           ("props", VObj [("component", VStr "Text"); ("text", VStr "OK")])]] in
  let schema := VObj [("updateComponents", VObj [("components", VArr components)])] in
  let st := {| this := matcher; message := schema |} in
  result_of (call_validate matcher schema) = Normal {| success := true; error := None |} <->
  exists button props,
    In button components /\
    Get button "props" = Normal props /\
    Get props "component" = Normal (VStr "Button") /\
    ((exists label,
         Get props "label" = Normal label /\ is_undefined label = false /\
         (propertyValue matcher = Literal VUndefined \/
          exists r, result_of (valueMatches label (propertyValue matcher) st) = Normal r
                    /\ truthy r = true))
     \/
     (exists child childComponent childProps textValue r,
         Get props "child" = Normal child /\ truthy child = true /\
         result_of (getComponentById components child st) = Normal childComponent /\
         Get childComponent "props" = Normal childProps /\
         Get childProps "component" = Normal (VStr "Text") /\
         Get childProps "text" = Normal textValue /\
         result_of (valueMatches textValue (propertyValue matcher) st) = Normal r /\
         truthy r = true)).
Proof.
  apply (validate_button_label_exactly
           (constructor "Button" (Some "label") (Some (Literal (VStr "OK"))) None)
           (VObj [("updateComponents",
                   VObj [("components",
                          VArr [VObj [("id", VStr "b");
                                      ("props", VObj [("component", VStr "Button");
                                                      ("child", VStr "t")])];
                                VObj [("id", VStr "t");
                                      ("props", VObj [("component", VStr "Text");
                                                      ("text", VStr "OK")])]])])])
           (VObj [("components",
                   VArr [VObj [("id", VStr "b");
                               ("props", VObj [("component", VStr "Button");
                                               ("child", VStr "t")])];
                         VObj [("id", VStr "t");
                               ("props", VObj [("component", VStr "Text");
                                               ("text", VStr "OK")])]])])
           [VObj [("id", VStr "b");
                  ("props", VObj [("component", VStr "Button"); ("child", VStr "t")])];
            VObj [("id", VStr "t");
                  ("props", VObj [("component", VStr "Text"); ("text", VStr "OK")])]]);
    try reflexivity.
  repeat constructor.
Defined.
